(** * RAR ITP checker: the fetch pipeline of [sensor.py]

    A shallow embedding of the OCR client ([solve_captcha_with_local_api]),
    the form builder ([_build_form_data_from_page]) and the retrying
    orchestrator with its result parser ([fetch_itp]), followed by the
    properties of the pipeline.

    Python [str] values are sequences of Unicode code points, dictionaries
    are finite maps, exceptions are values of an error type, and the network
    is an explicit environment whose replies the functions consume while
    they log what they send. *)

From Stdlib Require Import ZArith NArith Ascii String DecimalString Lia.
From stdpp Require Import base option list gmap.

#[local] Set Warnings "-register-all".
Local Open Scope N_scope.

(** ** Python strings *)

(** A [str] is a list of code points. *)
Abbreviation pystr := (list N).
Abbreviation bytes := (list N).

(** String literals of this file are written in UTF-8 and decoded once. *)
Fixpoint utf8_decode (bs : list N) : pystr :=
  match bs with
  | [] => []
  | b :: r =>
    if b <? 128 then b :: utf8_decode r
    else if b <? 224 then
      match r with
      | b1 :: r1 => ((b - 192) * 64 + (b1 - 128)) :: utf8_decode r1
      | _ => []
      end
    else if b <? 240 then
      match r with
      | b1 :: b2 :: r2 =>
        ((b - 224) * 4096 + (b1 - 128) * 64 + (b2 - 128)) :: utf8_decode r2
      | _ => []
      end
    else
      match r with
      | b1 :: b2 :: b3 :: r3 =>
        ((b - 240) * 262144 + (b1 - 128) * 4096 + (b2 - 128) * 64 + (b3 - 128))
          :: utf8_decode r3
      | _ => []
      end
  end.

Definition py (s : string) : pystr :=
  utf8_decode (map N_of_ascii (list_ascii_of_string s)).

(** [str(n)] for an integer. *)
Definition str_of_Z (z : Z) : pystr :=
  map N_of_ascii (list_ascii_of_string (NilZero.string_of_int (Z.to_int z))).

(** [str.isspace] of one character: general category Zs or bidirectional
    class WS, B or S. This is the set [str.strip()] and [str.split()] use. *)
Definition isspace (c : N) : bool :=
  ((9 <=? c) && (c <=? 13)) || ((28 <=? c) && (c <=? 32))
  || (c =? 133) || (c =? 160) || (c =? 5760)
  || ((8192 <=? c) && (c <=? 8202))
  || (c =? 8232) || (c =? 8233) || (c =? 8239) || (c =? 8287) || (c =? 12288).

Definition CH_DOT : N := 46.
Definition CH_DASH : N := 45.
Definition CH_SLASH : N := 47.
Definition CH_HASH : N := 35.
Definition CH_PLUS : N := 43.
Definition CH_ZERO : N := 48.
Definition CH_NL : N := 10.
Definition CH_QMARK : N := 63.

(** [s.startswith(p)] *)
Fixpoint startswith (p s : pystr) : bool :=
  match p, s with
  | [], _ => true
  | _ :: _, [] => false
  | a :: p', b :: s' => (a =? b) && startswith p' s'
  end.

(** [p in s] *)
Fixpoint contains (p s : pystr) : bool :=
  startswith p s ||
  match s with
  | [] => false
  | _ :: r => contains p r
  end.

(** [s.split(sep, 1)] for a non-empty separator: [None] when the separator
    does not occur (Python then returns the one-element list [[s]]),
    otherwise the text before and after its first occurrence. *)
Fixpoint split1 (sep s : pystr) : option (pystr * pystr) :=
  if startswith sep s then Some ([], drop (length sep) s)
  else
    match s with
    | [] => None
    | c :: r =>
      match split1 sep r with
      | Some (a, b) => Some (c :: a, b)
      | None => None
      end
    end.

(** [s.rsplit(sep, 1)]: the same from the right. *)
Definition rsplit1 (sep s : pystr) : option (pystr * pystr) :=
  match split1 (rev sep) (rev s) with
  | Some (a, b) => Some (rev b, rev a)
  | None => None
  end.

(** [s.split(c)] for a one-character separator: always at least one part. *)
Fixpoint split_char (c : N) (s : pystr) : list pystr :=
  match s with
  | [] => [[]]
  | x :: r =>
    if x =? c then [] :: split_char c r
    else
      match split_char c r with
      | p :: ps => (x :: p) :: ps
      | [] => [[x]]
      end
  end.

(** [s.lstrip(chars)], [s.rstrip(chars)], [s.strip(chars)] with the set of
    characters given as a predicate. *)
Fixpoint lstrip_by (f : N -> bool) (s : pystr) : pystr :=
  match s with
  | [] => []
  | c :: r => if f c then lstrip_by f r else s
  end.

Definition rstrip_by (f : N -> bool) (s : pystr) : pystr :=
  rev (lstrip_by f (rev s)).

Definition strip_by (f : N -> bool) (s : pystr) : pystr :=
  rstrip_by f (lstrip_by f s).

(** [s.strip()] *)
Definition strip (s : pystr) : pystr := strip_by isspace s.

(** [s.split()]: the maximal runs of non-whitespace characters. *)
Fixpoint split_ws_from (cur : pystr) (s : pystr) : list pystr :=
  match s with
  | [] => match cur with [] => [] | _ => [rev cur] end
  | c :: r =>
    if isspace c then
      match cur with
      | [] => split_ws_from [] r
      | _ => rev cur :: split_ws_from [] r
      end
    else split_ws_from (c :: cur) r
  end.

Definition split_ws (s : pystr) : list pystr := split_ws_from [] s.

(** [s.zfill(width)]: zeros go after a leading sign. *)
Definition zfill (width : nat) (s : pystr) : pystr :=
  let pad := repeat CH_ZERO (width - length s) in
  match s with
  | c :: r => if (c =? CH_PLUS) || (c =? CH_DASH) then c :: pad ++ r else pad ++ s
  | [] => pad
  end.

(** [sep.join(parts)] *)
Fixpoint join (sep : pystr) (parts : list pystr) : pystr :=
  match parts with
  | [] => []
  | [p] => p
  | p :: ps => p ++ sep ++ join sep ps
  end.

(** ** Exceptions, results and the log of requests *)

Inductive exn_class := UpdateFailed | OCRAPIError | TimeoutError | OtherError.

Global Instance exn_class_eq_dec : EqDecision exn_class.
Proof. solve_decision. Defined.

(** An exception: its class, its message ([str(e)]) and its [__cause__]
    (set by [raise ... from e]). Only subclasses of [Exception] are
    modelled; [TimeoutError] is [asyncio.TimeoutError] and [OtherError]
    stands for every other subclass. *)
Inductive exn := Exception (cls : exn_class) (msg : pystr) (cause : option exn).

Definition exn_cls (e : exn) : exn_class := let 'Exception c _ _ := e in c.
Definition exn_str (e : exn) : pystr := let 'Exception _ m _ := e in m.
Definition exn_cause (e : exn) : option exn := let 'Exception _ _ c := e in c.

Inductive result (A : Type) := Ok (a : A) | Raise (e : exn).
Arguments Ok {A} a.
Arguments Raise {A} e.

(** What a run sends to the outside, in order. *)
Inductive event :=
  | HttpGet (url : pystr)
  | HttpPost (url : pystr) (data : gmap pystr pystr)
  | OcrUpload (url : pystr) (image : bytes)
  | SaveImage (vin : pystr) (attempt : nat) (image : bytes)
  | Sleep (seconds : nat).

(** A computation logs events and returns or raises. *)
Definition io (A : Type) : Type := list event * result A.

Definition io_ret {A} (a : A) : io A := ([], Ok a).
Definition throw {A} (e : exn) : io A := ([], Raise e).
Definition raise_ {A} (c : exn_class) (m : pystr) : io A := throw (Exception c m None).
Definition emit (ev : event) : io unit := ([ev], Ok tt).
Definition lift {A} (r : result A) : io A := ([], r).

Definition after {A} (t : list event) (m : io A) : io A := (t ++ m.1, m.2).

Definition io_bind {A B} (f : A -> io B) (m : io A) : io B :=
  match m.2 with
  | Ok a => after m.1 (f a)
  | Raise e => (m.1, Raise e)
  end.

(** [try: m  except ... as e: h e]; the handler answers [None] for an
    exception no [except] clause matches. *)
Definition try_except {A} (m : io A) (h : exn -> option (io A)) : io A :=
  match m.2 with
  | Ok _ => m
  | Raise e => match h e with Some k => after m.1 k | None => m end
  end.

Notation "x <- m ;; k" := (io_bind (fun x => k) m)
  (at level 100, m at next level, right associativity, only parsing).
Notation "m ;;; k" := (io_bind (fun _ => k) m)
  (at level 100, right associativity, only parsing).

(** ** The parse tree of bs4

    A string node stands for a string that [get_text] yields: a
    [NavigableString] proper or a [CData]. Strings of the other types
    (comments, declarations, the content of [script] and [style]), which
    [get_text] leaves out, have no node of their own: the tree is the
    parse tree without them. *)

Inductive node :=
  | Tag (name : pystr) (attrs : gmap pystr pystr) (children : list node)
  | NavigableString (s : pystr).

(** [tag.get(key)] *)
Definition tag_get (n : node) (key : pystr) : option pystr :=
  match n with
  | Tag _ attrs _ => attrs !! key
  | NavigableString _ => None
  end.

(** [tag.descendants]: document order. *)
Fixpoint descendants (n : node) : list node :=
  match n with
  | Tag _ _ cs =>
    (fix go (l : list node) : list node :=
       match l with
       | [] => []
       | c :: r => c :: descendants c ++ go r
       end) cs
  | NavigableString _ => []
  end.

Definition is_tag (name : pystr) (n : node) : bool :=
  match n with
  | Tag nm _ _ => bool_decide (nm = name)
  | NavigableString _ => false
  end.

Definition any_tag (n : node) : bool :=
  match n with
  | Tag _ _ _ => true
  | NavigableString _ => false
  end.

Definition has_attr (key value : pystr) (n : node) : bool :=
  bool_decide (tag_get n key = Some value).

(** [root.find(name)], [root.find(name, attrs={key: value})] and
    [root.find_all(name)] *)
Definition find (root : node) (name : pystr) : option node :=
  head (List.filter (is_tag name) (descendants root)).

Definition find_attr (root : node) (name key value : pystr) : option node :=
  head (List.filter (fun n => is_tag name n && has_attr key value n)
                    (descendants root)).

Definition find_all (root : node) (name : pystr) : list node :=
  List.filter (is_tag name) (descendants root).

(** The strings below a node, and [get_text(separator, strip=True)]. *)
Definition strings_of (n : node) : list pystr :=
  omap (fun d => match d with NavigableString s => Some s | Tag _ _ _ => None end)
       (descendants n).

Definition get_text_strip (separator : pystr) (n : node) : pystr :=
  join separator
       (List.filter (fun s => negb (bool_decide (s = [])))
                    (map strip (strings_of n))).

(** [root.find(text=p)] followed by [.find_next()]: the first string for
    which [p] holds and the first tag after it in document order. The
    outer option is the result of [find], the inner one of [find_next]. *)
Fixpoint find_text_then_next (p : pystr -> bool) (l : list node)
  : option (option node) :=
  match l with
  | [] => None
  | NavigableString s :: r =>
    if p s then Some (head (List.filter any_tag r))
    else find_text_then_next p r
  | Tag _ _ _ :: r => find_text_then_next p r
  end.

(** ** What the code takes from outside the repository

    CPython's Unicode tables ([\d] of [re] on [str], [str.lower],
    [str.upper], [repr]) and the tree builder
    [BeautifulSoup(markup, "html.parser")]. Every property below holds for
    any choice of them. *)
Class Runtime := {
  re_digit : N -> bool;
  str_lower : pystr -> pystr;
  str_upper : pystr -> pystr;
  repr : pystr -> pystr;
  BeautifulSoup : pystr -> node;
}.

(** ** const.py *)

Definition BASE_URL : pystr :=
  Eval vm_compute in py "https://prog.rarom.ro/rarpol/rarpol.asp".
Definition DEFAULT_LOCAL_OCR_API_URL : pystr :=
  Eval vm_compute in py "http://127.0.0.1:8000/ocr/file?lang=eng".

(** ** sensor.py *)

Definition MONTH_MAP : gmap pystr pystr :=
  list_to_map
    [ (py "ian", py "01"); (py "feb", py "02"); (py "mar", py "03");
      (py "apr", py "04"); (py "mai", py "05"); (py "iun", py "06");
      (py "iul", py "07"); (py "aug", py "08"); (py "sept", py "09");
      (py "oct", py "10"); (py "nov", py "11"); (py "dec", py "12") ].

Definition PORTAL_HOST : pystr := Eval vm_compute in py "https://prog.rarom.ro".
Definition F_NR_ID : pystr := Eval vm_compute in py "nr_id".
Definition F_VERIF_COD : pystr := Eval vm_compute in py "verif_cod".
Definition F_ANTIROBOT : pystr := Eval vm_compute in py "antirobot".
Definition F_TRIMITE : pystr := Eval vm_compute in py "trimite".
Definition SUBMIT_LABEL : pystr := Eval vm_compute in py "Caută".
Definition HTTP_PREFIX : pystr := Eval vm_compute in py "http".
Definition REJECTION_PHRASE : pystr :=
  Eval vm_compute in py "codul de verificare a fost copiat incorect".
Definition NO_RECORD_MARKER : pystr :=
  Eval vm_compute in py "nu a fost găsită nicio înregistrare".
Definition VALID_UNTIL_MARKER : pystr :=
  Eval vm_compute in py "valabilă până la".
Definition LEGACY_MARKER_LOWER : pystr :=
  Eval vm_compute in py "data expirării".
Definition LEGACY_MARKER : pystr :=
  Eval vm_compute in py "Data expirării".

(** The OCR endpoint's answer to one upload: the request raises, or a
    response arrives. [resp.text()] and [resp.json()] may raise on their
    own. Of the decoded JSON only what the client reads is kept: whether it
    is an object (otherwise [.get] raises [AttributeError]), and the [str()]
    of the value under ["text"] when the key is present. *)
Inductive json_doc :=
  | JObject (text : option pystr)
  | JNotObject (type_name : pystr).

Record ocr_response := {
  ocr_status : Z;
  ocr_body_text : result pystr;
  ocr_body_json : result json_doc;
}.

Section Pipeline.
Context {R : Runtime}.

(** [re.sub(r"\D", "", s)] *)
Definition re_sub_nondigits (s : pystr) : pystr := List.filter re_digit s.

(** [re.fullmatch(r"\d{lo,hi}", s)] as a truth value *)
Definition fullmatch_digits (lo hi : nat) (s : pystr) : bool :=
  (lo <=? length s)%nat && (length s <=? hi)%nat && forallb re_digit s.

(** [OCRAPIError("OCR processing failed")] raised [from e]. *)
Definition ocr_processing_failed (e : exn) : exn :=
  Exception OCRAPIError (py "OCR processing failed") (Some e).

(** The block [# Build final URL] of [solve_captcha_with_local_api]. *)
Definition ocr_request_url (LOCAL_OCR_API_URL : pystr) : pystr :=
  if contains [CH_QMARK] LOCAL_OCR_API_URL
  then LOCAL_OCR_API_URL ++ py "&expected_length=4"
  else LOCAL_OCR_API_URL ++ py "?expected_length=4".

(** [LOCAL_OCR_API_URL] is the module-level variable of that name. *)
Definition solve_captcha_with_local_api
    (LOCAL_OCR_API_URL : pystr)
    (endpoint : pystr -> bytes -> result ocr_response)
    (image_bytes : bytes) : io pystr :=
  try_except
    (let url := ocr_request_url LOCAL_OCR_API_URL in
     try_except
       (emit (OcrUpload url image_bytes) ;;;
        resp <- lift (endpoint url image_bytes) ;;
        if negb (ocr_status resp =? 200)%Z then
          text <- lift (ocr_body_text resp) ;;
          raise_ OCRAPIError
            (py "OCR API HTTP " ++ str_of_Z (ocr_status resp) ++ py ": "
               ++ take 200 text)
        else
          data <- lift (ocr_body_json resp) ;;
          value <- match data with
                   | JObject text => io_ret (default [] text)
                   | JNotObject ty =>
                     raise_ OtherError
                       (py "'" ++ ty ++ py "' object has no attribute 'get'")
                   end ;;
          let raw_text := strip value in
          match raw_text with
          | [] => raise_ OCRAPIError (py "OCR API returned empty text")
          | _ :: _ =>
            let digits_only := re_sub_nondigits raw_text in
            if negb (fullmatch_digits 1 6 digits_only) then
              raise_ OCRAPIError
                (py "Invalid CAPTCHA format from OCR API: raw=" ++ repr raw_text
                   ++ py ", digits=" ++ repr digits_only)
            else
              io_ret (if (4 <=? length digits_only)%nat
                      then take 4 digits_only
                      else digits_only)
          end)
       (fun e =>
          match exn_cls e with
          | TimeoutError => Some (raise_ OCRAPIError (py "OCR API timeout"))
          | _ => None
          end))
    (fun e => Some (throw (ocr_processing_failed e))).

(** The block [# Determine POST URL] of [_build_form_data_from_page];
    [action] is [form_el.get("action") or ""]. *)
Definition determine_post_url (action : pystr) : pystr :=
  if startswith HTTP_PREFIX action then action
  else
    let action_clean :=
      if contains [CH_HASH] action then
        match split1 [CH_HASH] action with
        | Some (before, _) => before
        | None => action
        end
      else action in
    match action_clean with
    | _ :: _ =>
      if startswith [CH_SLASH] action_clean then PORTAL_HOST ++ action_clean
      else
        let base_root :=
          match rsplit1 [CH_SLASH] BASE_URL with
          | Some (before, _) => before
          | None => BASE_URL
          end in
        base_root ++ [CH_SLASH] ++ action_clean
    | [] => BASE_URL
    end.

(** The loop over [form_el.find_all("input")]: later inputs overwrite
    earlier ones of the same name; inputs without a name, or with an empty
    one, are skipped. *)
Definition collect_inputs (inputs : list node) : gmap pystr pystr :=
  foldl
    (fun form_data inp =>
       match tag_get inp (py "name") with
       | Some (c :: n) =>
         <[ c :: n := default [] (tag_get inp (py "value")) ]> form_data
       | _ => form_data
       end)
    ∅ inputs.

(** The three overrides, on the collected fields. *)
Definition override_vin (vin : pystr) (form_data : gmap pystr pystr)
  : gmap pystr pystr :=
  match form_data !! F_NR_ID with
  | Some _ => <[ F_NR_ID := str_upper vin ]> form_data
  | None => <[ F_NR_ID := str_upper vin ]> form_data
  end.

Definition override_captcha (captcha_code : pystr)
    (form_data : gmap pystr pystr) : gmap pystr pystr :=
  match form_data !! F_VERIF_COD with
  | Some _ => <[ F_VERIF_COD := captcha_code ]> form_data
  | None =>
    match form_data !! F_ANTIROBOT with
    | Some _ => <[ F_ANTIROBOT := captcha_code ]> form_data
    | None => <[ F_VERIF_COD := captcha_code ]> form_data
    end
  end.

(** The name under which [override_captcha] writes the code. *)
Definition captcha_field (form_data : gmap pystr pystr) : pystr :=
  match form_data !! F_VERIF_COD with
  | Some _ => F_VERIF_COD
  | None =>
    match form_data !! F_ANTIROBOT with
    | Some _ => F_ANTIROBOT
    | None => F_VERIF_COD
    end
  end.

Definition fill_submit (form_data : gmap pystr pystr) : gmap pystr pystr :=
  match form_data !! F_TRIMITE with
  | Some [] => <[ F_TRIMITE := SUBMIT_LABEL ]> form_data
  | _ => form_data
  end.

(** [soup.find("form", attrs={"name": "frm"})], else [soup.find("form")]. *)
Definition locate_form (soup : node) : option node :=
  match find_attr soup (py "form") (py "name") (py "frm") with
  | Some f => Some f
  | None => find soup (py "form")
  end.

Definition _build_form_data_from_page (soup : node) (vin captcha_code : pystr)
  : result (pystr * gmap pystr pystr) :=
  match locate_form soup with
  | None =>
    Raise (Exception UpdateFailed
             (py "Unable to find form element on RAR page") None)
  | Some form_el =>
    let action := default [] (tag_get form_el (py "action")) in
    let post_url := determine_post_url action in
    let inputs := find_all form_el (py "input") in
    let form_data := collect_inputs inputs in
    let form_data := override_vin vin form_data in
    let form_data := override_captcha captcha_code form_data in
    let form_data := fill_submit form_data in
    Ok (post_url, form_data)
  end.

(** *** The network seen by [fetch_itp] *)

(** One aiohttp exchange: the request raises, or a response arrives with a
    status and a body whose reading may raise. *)
Definition reply (A : Type) : Type := result (Z * result A).

(** What the outside answers during one attempt. The portal's answers may
    depend on what is sent. *)
Record attempt_env := {
  landing : reply pystr;
  captcha_image : pystr -> reply bytes;
  ocr_endpoint : pystr -> bytes -> result ocr_response;
  portal : pystr -> gmap pystr pystr -> reply pystr;
}.

(** [async with session.get(...) as r: if r.status != 200: raise
    UpdateFailed(f"{what}{r.status}"); body = await r.text()] *)
Definition checked_body {A} (r : reply A) (what : pystr) : io A :=
  match r with
  | Raise e => throw e
  | Ok (status, body) =>
    if negb (status =? 200)%Z
    then raise_ UpdateFailed (what ++ str_of_Z status)
    else lift body
  end.

(** The body of the [try] of one attempt up to and including
    [result_text = await result_response.text()]. *)
Definition attempt_request (LOCAL_OCR_API_URL : pystr) (env : attempt_env)
    (vin : pystr) (attempt : nat) : io pystr :=
  emit (HttpGet BASE_URL) ;;;
  html <- checked_body (landing env) (py "Initial request failed: HTTP ") ;;
  let soup := BeautifulSoup html in
  captcha_src <-
    match find_attr soup (py "img") (py "id") (py "imgVerf") with
    | Some captcha_img =>
      match tag_get captcha_img (py "src") with
      | Some (c :: s) => io_ret (c :: s)
      | _ => raise_ UpdateFailed (py "CAPTCHA image not found in page")
      end
    | None => raise_ UpdateFailed (py "CAPTCHA image not found in page")
    end ;;
  let captcha_url :=
    if startswith HTTP_PREFIX captcha_src then captcha_src
    else py "https://prog.rarom.ro/rarpol/"
           ++ lstrip_by (N.eqb CH_SLASH) captcha_src in
  emit (HttpGet captcha_url) ;;;
  captcha_content <-
    checked_body (captcha_image env captcha_url)
                 (py "CAPTCHA download failed: HTTP ") ;;
  emit (SaveImage vin attempt captcha_content) ;;;
  captcha_text <-
    try_except
      (solve_captcha_with_local_api LOCAL_OCR_API_URL (ocr_endpoint env)
                                    captcha_content)
      (fun err =>
         match exn_cls err with
         | OCRAPIError =>
           Some (raise_ UpdateFailed (py "OCR API failed: " ++ exn_str err))
         | _ => None
         end) ;;
  match captcha_text with
  | [] => raise_ UpdateFailed (py "CAPTCHA OCR returned empty result")
  | _ :: _ =>
    let clean_captcha := re_sub_nondigits captcha_text in
    if negb (fullmatch_digits 4 4 clean_captcha) then
      raise_ UpdateFailed
        (py "Invalid CAPTCHA output after cleaning: " ++ clean_captcha)
    else
      form <- lift (_build_form_data_from_page soup vin clean_captcha) ;;
      let '(post_url, form_data) := form in
      emit (HttpPost post_url form_data) ;;;
      checked_body (portal env post_url form_data)
                   (py "POST request failed: HTTP ")
  end.

(** [UpdateFailed(f"Failed after 3 attempts: {str(e)}")] *)
Definition failed_after_3_attempts (e : exn) : exn :=
  Exception UpdateFailed (py "Failed after 3 attempts: " ++ exn_str e) None.

(** [UpdateFailed(f"ITP check failed: {err}")] raised [from err]. *)
Definition itp_check_failed (err : exn) : exn :=
  Exception UpdateFailed (py "ITP check failed: " ++ exn_str err) (Some err).

(** [UpdateFailed("CAPTCHA validation failed")] *)
Definition captcha_validation_failed : exn :=
  Exception UpdateFailed (py "CAPTCHA validation failed") None.

(** The whole body of the [try] of one attempt: the request, then the
    check of the answer for the portal's rejection phrase. It returns the
    text with which the loop is left by [break]. *)
Definition attempt_body (LOCAL_OCR_API_URL : pystr) (env : attempt_env)
    (vin : pystr) (attempt : nat) : io pystr :=
  result_text <- attempt_request LOCAL_OCR_API_URL env vin attempt ;;
  if contains REJECTION_PHRASE (str_lower result_text)
  then throw captcha_validation_failed
  else io_ret result_text.

(** The variable [result_text] after an attempt: assigned as soon as the
    portal's answer has been read, also when the answer is then rejected. *)
Definition result_text_after (request : io pystr) (result_text : pystr) : pystr :=
  match request.2 with
  | Ok text => text
  | Raise _ => result_text
  end.

(** [for attempt in range(1, 4)] over the attempts still to run, with the
    handler [except UpdateFailed as e]. The result is the value of
    [result_text] when the loop is left. *)
Fixpoint retry_loop (LOCAL_OCR_API_URL : pystr) (world : nat -> attempt_env)
    (vin : pystr) (attempts : list nat) (result_text : pystr) : io pystr :=
  match attempts with
  | [] => io_ret result_text
  | attempt :: rest =>
    try_except
      (attempt_body LOCAL_OCR_API_URL (world attempt) vin attempt)
      (fun e =>
         match exn_cls e with
         | UpdateFailed =>
           Some
             (if (attempt =? 3)%nat then throw (failed_after_3_attempts e)
              else
                emit (Sleep 2) ;;;
                retry_loop LOCAL_OCR_API_URL world vin rest
                  (result_text_after
                     (attempt_request LOCAL_OCR_API_URL (world attempt) vin attempt)
                     result_text))
         | _ => None
         end)
  end.

(** *** The result parser (the block [# ---- Parse results from RAR HTML]) *)

Definition STATUS_VALID : pystr := Eval vm_compute in py "Valid".
Definition STATUS_NOT_FOUND : pystr := Eval vm_compute in py "Not Found".
Definition UNKNOWN : pystr := Eval vm_compute in py "Unknown".

Definition index_error : exn :=
  Exception OtherError (py "list index out of range") None.
Definition unpack_error : exn :=
  Exception OtherError (py "wrong number of values to unpack") None.
Definition none_error : exn :=
  Exception OtherError (py "'NoneType' object has no attribute 'get_text'") None.

(** The day, month or year of a date token: no whitespace, dash or dot. *)
Definition date_part (s : pystr) : bool :=
  forallb (fun c => negb (isspace c) && negb (c =? CH_DASH) && negb (c =? CH_DOT)) s.

(** The body of the [try] of the new format, on the lower-cased text. *)
Definition new_format_date (lower : pystr) : result pystr :=
  match split1 VALID_UNTIL_MARKER lower with
  | None => Raise index_error
  | Some (_, fragment) =>
    match split_ws fragment with
    | [] => Raise index_error
    | first :: _ =>
      let raw_date := strip_by (N.eqb CH_DOT) (strip first) in
      match split_char CH_DASH raw_date with
      | [day; month; year] =>
        Ok (year ++ [CH_DASH] ++ default (py "01") (MONTH_MAP !! month)
              ++ [CH_DASH] ++ zfill 2 day)
      | _ => Raise unpack_error
      end
    end
  end.

(** The body of the [try] of the old format; [None] when no text node
    carries the marker, so that the date is left as it is. Unlike
    [get_text], [find(text=...)] also visits comments and the content of
    [script] and [style], which the tree does not hold: this definition is
    the code's lookup on pages whose marker is not inside such a string.
    No property below states the result of this branch. *)
Definition old_format_date (result_soup : node) : result (option pystr) :=
  match find_text_then_next (contains LEGACY_MARKER) (descendants result_soup) with
  | None => Ok None
  | Some None => Raise none_error
  | Some (Some next) =>
    let raw := join [] (List.filter (fun s => negb (bool_decide (s = [])))
                                    (map strip (strings_of next))) in
    match split_char CH_DOT raw with
    | [day; month; year] => Ok (Some (year ++ [CH_DASH] ++ month ++ [CH_DASH] ++ day))
    | _ => Raise unpack_error
    end
  end.

Record itp_record := {
  rec_vin : pystr;
  rec_status : pystr;
  rec_expiration_date : pystr;
  rec_last_checked : pystr;
}.

(** The text the markers are looked up in: that of the results container
    when the page has one, else the whole answer. *)
Definition content_text (result_text : pystr) : pystr :=
  match find_attr (BeautifulSoup result_text) (py "div") (py "id") (py "rezbgcolor") with
  | Some result_div => get_text_strip [CH_NL] result_div
  | None => result_text
  end.

(** [status] and [expiration_date] as the parser leaves them. *)
Definition parse_results (result_text : pystr) : pystr * pystr :=
  let result_soup := BeautifulSoup result_text in
  let lower := str_lower (content_text result_text) in
  if negb (contains NO_RECORD_MARKER lower) then
    let expiration_date :=
      if contains VALID_UNTIL_MARKER lower then
        match new_format_date lower with
        | Ok d => d
        | Raise _ => UNKNOWN
        end
      else if contains LEGACY_MARKER_LOWER lower then
        match old_format_date result_soup with
        | Ok (Some d) => d
        | Ok None => UNKNOWN
        | Raise _ => UNKNOWN
        end
      else UNKNOWN in
    (STATUS_VALID, expiration_date)
  else (STATUS_NOT_FOUND, UNKNOWN).

(** The dictionary [fetch_itp] returns; [now] is
    [datetime.now().strftime("%Y-%m-%d %H:%M:%S")] at the return. *)
Definition record_of (now vin result_text : pystr) : itp_record :=
  let '(status, expiration_date) := parse_results result_text in
  {| rec_vin := vin; rec_status := status;
     rec_expiration_date := expiration_date;
     rec_last_checked := now |}.

Definition fetch_itp (LOCAL_OCR_API_URL : pystr) (world : nat -> attempt_env)
    (now : pystr) (vin : pystr) : io itp_record :=
  try_except
    (result_text <- retry_loop LOCAL_OCR_API_URL world vin [1; 2; 3]%nat [] ;;
     io_ret (record_of now vin result_text))
    (fun err => Some (throw (itp_check_failed err))).

(** *** Reading a run *)

(** The CAPTCHA value of a posted form: the one under [verif_cod], or
    under [antirobot] when the form has no [verif_cod]. *)
Definition posted_captcha (data : gmap pystr pystr) : option pystr :=
  match data !! F_VERIF_COD with
  | Some c => Some c
  | None => data !! F_ANTIROBOT
  end.

(** What the retry loop raises when the attempt it stops at raised [e]:
    the handler's exception for an [UpdateFailed], else [e] itself. *)
Definition loop_failure (e : exn) : exn :=
  match exn_cls e with
  | UpdateFailed => failed_after_3_attempts e
  | _ => e
  end.

(** A posted form is acceptable when its CAPTCHA value is not empty and,
    cleaned of non-digits, is exactly four digits. *)
Definition acceptable_event (ev : event) : Prop :=
  match ev with
  | HttpPost _ data =>
    exists code, posted_captcha data = Some code /\ code <> [] /\
                 fullmatch_digits 4 4 (re_sub_nondigits code) = true
  | _ => True
  end.

(** What the given attempts send when they are all run, with the back-off
    between two of them. *)
Fixpoint attempts_log (LOCAL_OCR_API_URL : pystr) (world : nat -> attempt_env)
    (vin : pystr) (attempts : list nat) : list event :=
  match attempts with
  | [] => []
  | n :: rest =>
    (attempt_request LOCAL_OCR_API_URL (world n) vin n).1
      ++ match rest with
         | [] => []
         | _ :: _ => Sleep 2 :: attempts_log LOCAL_OCR_API_URL world vin rest
         end
  end.

End Pipeline.

Arguments re_sub_nondigits : simpl never.
Arguments fullmatch_digits : simpl never.
Arguments strip : simpl never.
Arguments py : simpl never.
Arguments str_of_Z : simpl never.
Arguments determine_post_url : simpl never.
Arguments _build_form_data_from_page : simpl never.
Arguments solve_captcha_with_local_api : simpl never.
Arguments attempt_request : simpl never.
Arguments parse_results : simpl never.
Arguments ocr_processing_failed : simpl never.
Arguments failed_after_3_attempts : simpl never.
Arguments itp_check_failed : simpl never.
Arguments captcha_validation_failed : simpl never.
Arguments record_of : simpl never.

(** ** A runtime and pages to evaluate the functions on

    [sample_runtime] agrees with CPython on the characters the examples
    use: ASCII digits and letters and the Romanian letters with
    diacritics. Its tree builder knows the two sample pages and reads any
    other text as markup-free. *)

Definition sample_lower_char (c : N) : N :=
  if (65 <=? c) && (c <=? 90) then c + 32
  else if c =? 258 then 259       (* Ă *)
  else if c =? 194 then 226       (* Â *)
  else if c =? 206 then 238       (* Î *)
  else if c =? 536 then 537       (* Ș *)
  else if c =? 538 then 539       (* Ț *)
  else c.

Definition sample_upper_char (c : N) : N :=
  if (97 <=? c) && (c <=? 122) then c - 32
  else if c =? 259 then 258
  else if c =? 226 then 194
  else if c =? 238 then 206
  else if c =? 537 then 536
  else if c =? 539 then 538
  else c.

Definition document (children : list node) : node :=
  Tag (py "[document]") ∅ children.

Definition input_tag (name value : pystr) : node :=
  Tag (py "input") (<[py "name" := name]> (<[py "value" := value]> ∅)) [].

Definition sample_landing_html : pystr :=
  py "<img id='imgVerf' src='captcha.asp'><form name='frm' action='rarpol.asp#rez'><input name='nr_id' value=''><input name='verif_cod' value=''><input name='tip' value='1'><input name='trimite' value=''></form>".

Definition sample_form : node :=
  Tag (py "form")
      (<[py "name" := py "frm"]> (<[py "action" := py "rarpol.asp#rez"]> ∅))
      [ input_tag (py "nr_id") []; input_tag (py "verif_cod") [];
        input_tag (py "tip") (py "1"); input_tag (py "trimite") [] ].

Definition sample_landing_soup : node :=
  document
    [ Tag (py "img") (<[py "id" := py "imgVerf"]> (<[py "src" := py "captcha.asp"]> ∅)) [];
      sample_form ].

(** A page whose form carries both CAPTCHA field names, the old one
    pre-filled. *)
Definition both_captcha_fields_soup : node :=
  document
    [ Tag (py "form") (<[py "name" := py "frm"]> ∅)
          [ input_tag (py "verif_cod") []; input_tag (py "antirobot") (py "1234") ] ].

Definition sample_runtime : Runtime := {|
  re_digit := fun c => (48 <=? c) && (c <=? 57);
  str_lower := map sample_lower_char;
  str_upper := map sample_upper_char;
  repr := fun s => py "'" ++ s ++ py "'";
  BeautifulSoup := fun markup =>
    if bool_decide (markup = sample_landing_html) then sample_landing_soup
    else document [NavigableString markup];
|}.

Definition ocr_answer (text : pystr) : ocr_response :=
  {| ocr_status := 200; ocr_body_text := Ok text;
     ocr_body_json := Ok (JObject (Some text)) |}.

Definition rejected_page : pystr :=
  py "Codul de verificare a fost copiat incorect!".
Definition valid_page : pystr :=
  py "Inspectia tehnica periodica este VALABILĂ PÂNĂ LA 5-MAR-2026. ".

(** A world in which the portal serves the sample page, the OCR endpoint
    reads [ocr_text n] during attempt [n] and the portal answers [answer n]
    to the submission of attempt [n]. *)
Definition sample_world (ocr_text : nat -> pystr) (answer : nat -> reply pystr)
  : nat -> attempt_env :=
  fun n => {|
    landing := Ok (200%Z, Ok sample_landing_html);
    captcha_image := fun _ => Ok (200%Z, Ok [137; 80; 78; 71]);
    ocr_endpoint := fun _ _ => Ok (ocr_answer (ocr_text n));
    portal := fun _ _ => answer n;
  |}.

(** Two rejected submissions, then an accepted one. *)
Definition world_third_time_lucky : nat -> attempt_env :=
  sample_world (fun _ => py "1234")
    (fun n => if (n <? 3)%nat then Ok (200%Z, Ok rejected_page)
              else Ok (200%Z, Ok valid_page)).

(** A rejected submission, then a server error, then an OCR reading of
    three digits only. *)
Definition world_three_failures : nat -> attempt_env :=
  sample_world (fun n => if (n <? 3)%nat then py "1234" else py "123")
    (fun n => if (n <? 2)%nat then Ok (200%Z, Ok rejected_page)
              else Ok (500%Z, Ok [])).

(** The form the sample page is posted with. *)
Definition sample_posted_form : gmap pystr pystr :=
  match @_build_form_data_from_page sample_runtime sample_landing_soup
          (py "wvw1k73zxmw000001") (py "1234") with
  | Ok (_, form_data) => form_data
  | Raise _ => ∅
  end.


(** ** The rest of [sensor.py], [captcha_solver.py] and [__init__.py] *)

(** *** [save_captcha_image]: where the image goes *)

Definition CH_UNDERSCORE : N := 95.

Definition is_ascii_alnum (c : N) : bool :=
  ((48 <=? c) && (c <=? 57)) || ((65 <=? c) && (c <=? 90))
  || ((97 <=? c) && (c <=? 122)).

(** [re.sub(r"[^A-Za-z0-9]", "_", vin)] *)
Definition safe_vin (vin : pystr) : pystr :=
  map (fun c => if is_ascii_alnum c then c else CH_UNDERSCORE) vin.

(** [s.endswith(p)] *)
Definition endswith (p s : pystr) : bool := startswith (rev p) (rev s).

(** [os.path.join(a, b)] of [posixpath] *)
Definition os_path_join (a b : pystr) : pystr :=
  if startswith [CH_SLASH] b then b
  else if bool_decide (a = []) || endswith [CH_SLASH] a then a ++ b
  else a ++ [CH_SLASH] ++ b.

Definition CAPTCHA_DIR : pystr :=
  Eval vm_compute in py "/config/www/rar_itp_captchas".

(** [filename] and [path] of [save_captcha_image]; [ts] is
    [datetime.now().strftime("%Y%m%d_%H%M%S")]. *)
Definition captcha_file_name (vin : pystr) (attempt : nat) (ts : pystr) : pystr :=
  py "captcha_" ++ safe_vin vin ++ py "_attempt"
     ++ str_of_Z (Z.of_nat attempt) ++ py "_" ++ ts ++ py ".png".

Definition captcha_file_path (vin : pystr) (attempt : nat) (ts : pystr) : pystr :=
  os_path_join CAPTCHA_DIR (captcha_file_name vin attempt ts).

(** *** [fetch_itp]: the address of the CAPTCHA image *)

(** [captcha_url], from the [src] of the image. *)
Definition captcha_url_of (captcha_src : pystr) : pystr :=
  if startswith HTTP_PREFIX captcha_src then captcha_src
  else py "https://prog.rarom.ro/rarpol/"
         ++ lstrip_by (N.eqb CH_SLASH) captcha_src.

(** *** [async_setup_entry] of [sensor.py] *)

(** [a or b] on two strings *)
Definition str_or (a b : pystr) : pystr :=
  match a with
  | [] => b
  | _ :: _ => a
  end.

(** The value given to the module-level [LOCAL_OCR_API_URL]; the arguments
    are [config_entry.options.get("tesseract_ip")] and
    [config_entry.data.get("tesseract_ip")]. *)
Definition configured_ocr_url (options_ip data_ip : option pystr) : pystr :=
  let tesseract_ip :=
    str_or (strip (default [] options_ip)) (strip (default [] data_ip)) in
  let effective_tesseract := tesseract_ip in
  match effective_tesseract with
  | _ :: _ =>
    if startswith (py "http://") effective_tesseract
       || startswith (py "https://") effective_tesseract
    then effective_tesseract
    else py "http://" ++ effective_tesseract ++ py ":8000/ocr/file?lang=eng"
  | [] => DEFAULT_LOCAL_OCR_API_URL
  end.

(** [calculate_days_until]; the two dates are taken through
    [strptime_ymd], which is [datetime.strptime(s, "%Y-%m-%d").date()] as a
    day number ([None] for [ValueError]), and [today], the day number of
    [date.today()]. *)
Definition calculate_days_until (strptime_ymd : pystr -> option Z) (today : Z)
    (expiration_date : pystr) : option Z :=
  if bool_decide (expiration_date = []) || bool_decide (expiration_date = UNKNOWN)
  then None
  else
    match strptime_ymd expiration_date with
    | Some exp => Some (exp - today)%Z
    | None => None
    end.

Section Platform.
Context {R : Runtime}.

(** [async_update_data]: [for attempt in range(3)] over the calls still to
    make. Call [n] of [fetch_itp] meets the world [worlds n] and returns at
    [clock n]. The loop's end without a [return] gives [None]. *)
Fixpoint update_loop (LOCAL_OCR_API_URL : pystr)
    (worlds : nat -> nat -> attempt_env) (clock : nat -> pystr) (vin : pystr)
    (attempts : list nat) : io (option itp_record) :=
  match attempts with
  | [] => io_ret None
  | attempt :: rest =>
    try_except
      (r <- fetch_itp LOCAL_OCR_API_URL (worlds attempt) (clock attempt) vin ;;
       io_ret (Some r))
      (fun e =>
         match exn_cls e with
         | UpdateFailed =>
           Some
             (if (attempt =? 2)%nat then throw e
              else
                emit (Sleep 2) ;;;
                update_loop LOCAL_OCR_API_URL worlds clock vin rest)
         | _ => None
         end)
  end.

Definition async_update_data (LOCAL_OCR_API_URL : pystr)
    (worlds : nat -> nat -> attempt_env) (clock : nat -> pystr) (vin : pystr)
  : io (option itp_record) :=
  update_loop LOCAL_OCR_API_URL worlds clock vin [0; 1; 2]%nat.

(** What the given calls of [fetch_itp] send when they are all made. *)
Fixpoint fetches_log (LOCAL_OCR_API_URL : pystr)
    (worlds : nat -> nat -> attempt_env) (clock : nat -> pystr) (vin : pystr)
    (attempts : list nat) : list event :=
  match attempts with
  | [] => []
  | n :: rest =>
    (fetch_itp LOCAL_OCR_API_URL (worlds n) (clock n) vin).1
      ++ match rest with
         | [] => []
         | _ :: _ => Sleep 2 :: fetches_log LOCAL_OCR_API_URL worlds clock vin rest
         end
  end.

End Platform.

Definition is_post (ev : event) : bool :=
  match ev with HttpPost _ _ => true | _ => false end.
Definition is_upload (ev : event) : bool :=
  match ev with OcrUpload _ _ => true | _ => false end.
Definition is_sleep (ev : event) : bool :=
  match ev with Sleep _ => true | _ => false end.

(** *** [captcha_solver._clean]: the binarisation *)

(** [threshold = max(100, min(170, int(mean)))], from [int(mean)]. *)
Definition clean_threshold (int_mean : Z) : Z :=
  Z.max 100 (Z.min 170 int_mean).

(** [lambda p: 255 if p > threshold else 0] *)
Definition clean_point (threshold p : Z) : Z :=
  if (p >? threshold)%Z then 255%Z else 0%Z.

(** *** [__init__.py]: the registry of coordinators and the service *)

(** [hass.data.get(DOMAIN)], a dictionary from VIN to
    [{"coordinator": coordinator}] (coordinators are numbered), and the
    registration of the service [check_now] with the VIN of the entry whose
    setup registered it. *)
Record hass_state := {
  hass_data : option (gmap pystr (gmap pystr nat));
  check_now_service : option (option pystr);
}.

Definition K_COORDINATOR : pystr := Eval vm_compute in py "coordinator".

(** [hass.data.setdefault(DOMAIN, {})[vin] = {"coordinator": coordinator}]
    at the end of the sensor platform's [async_setup_entry]. *)
Definition store_coordinator (vin : pystr) (coordinator : nat) (h : hass_state)
  : hass_state :=
  {| hass_data :=
       Some (<[vin := {[K_COORDINATOR := coordinator]}]> (default ∅ (hass_data h)));
     check_now_service := check_now_service h |}.

(** [async_setup_entry] of [__init__.py]; [forward] is what forwarding the
    entry to the platforms does to the state. *)
Definition init_async_setup_entry (forward : hass_state -> hass_state)
    (entry_vin : option pystr) (h : hass_state) : hass_state * bool :=
  let h := {| hass_data := Some (default ∅ (hass_data h));
              check_now_service := check_now_service h |} in
  let h := forward h in
  let h :=
    match check_now_service h with
    | None => {| hass_data := hass_data h; check_now_service := Some entry_vin |}
    | Some _ => h
    end in
  (h, true).

(** [handle_check_now]: the coordinator whose refresh is requested, if any.
    [entry_vin] is the VIN of the entry captured at registration. *)
Definition handle_check_now (h : hass_state) (call_vin entry_vin : option pystr)
  : option nat :=
  let vin :=
    match call_vin with
    | Some (c :: s) => Some (c :: s)
    | _ => entry_vin
    end in
  match vin with
  | Some (c :: s) =>
    match default ∅ (hass_data h) !! (c :: s) with
    | Some entry_data =>
      if bool_decide (entry_data = ∅) then None
      else entry_data !! K_COORDINATOR
    | None => None
    end
  | _ => None
  end.

(** [async_unload_entry]; [unload_ok] is the answer of
    [async_unload_platforms]. *)
Definition async_unload_entry (unload_ok : bool) (entry_vin : option pystr)
    (h : hass_state) : hass_state * bool :=
  if negb unload_ok then (h, false)
  else
    match hass_data h with
    | None => (h, true)
    | Some domain_data =>
      if bool_decide (domain_data = ∅) then (h, true)
      else
        let domain_data :=
          match entry_vin with
          | Some (c :: s) => delete (c :: s) domain_data
          | _ => domain_data
          end in
        if bool_decide (domain_data = ∅)
        then ({| hass_data := None; check_now_service := None |}, true)
        else ({| hass_data := Some domain_data;
                 check_now_service := check_now_service h |}, true)
    end.

(** *** Reading the results *)

(** The characters of a decimal numeral. *)
Definition is_ascii_digit (c : N) : bool := (48 <=? c) && (c <=? 57).

(** The values of [MONTH_MAP]. *)
Definition MONTH_CODES : list pystr :=
  [ py "01"; py "02"; py "03"; py "04"; py "05"; py "06";
    py "07"; py "08"; py "09"; py "10"; py "11"; py "12" ].

(** The registry is settled when the domain data is absent and the service
    unregistered, or holds at least one VIN with the service registered. *)
Definition settled (h : hass_state) : Prop :=
  match hass_data h with
  | None => check_now_service h = None
  | Some domain_data => domain_data <> ∅ /\ is_Some (check_now_service h)
  end.

(** Two ways the world can go wrong, and a page without a form. *)
Definition world_landing_times_out : nat -> attempt_env :=
  fun n => {|
    landing := Raise (Exception TimeoutError [] None);
    captcha_image := fun _ => Ok (200%Z, Ok []);
    ocr_endpoint := fun _ _ => Raise (Exception TimeoutError [] None);
    portal := fun _ _ => Ok (200%Z, Ok valid_page);
  |}.

Definition formless_soup : node :=
  document [ Tag (py "p") ∅ [NavigableString (py "in lucru")] ].

(** * Properties *)

(** ** Computations that log and raise *)

Lemma snd_bind {A B} (f : A -> io B) (m : io A) :
  (io_bind f m).2 = match m.2 with Ok a => (f a).2 | Raise e => Raise e end.
Proof. unfold io_bind. by destruct m.2. Qed.

Lemma fst_bind {A B} (f : A -> io B) (m : io A) :
  (io_bind f m).1 = m.1 ++ match m.2 with Ok a => (f a).1 | Raise _ => [] end.
Proof. unfold io_bind. destruct m.2; simpl; by rewrite ?app_nil_r. Qed.

Lemma snd_try {A} (m : io A) h :
  (try_except m h).2 =
  match m.2 with
  | Ok a => Ok a
  | Raise e => match h e with Some k => k.2 | None => Raise e end
  end.
Proof.
  unfold try_except. destruct m.2 eqn:E; [done|]. by destruct (h e).
Qed.

Lemma fst_try {A} (m : io A) h :
  (try_except m h).1 =
  m.1 ++ match m.2 with
         | Ok _ => []
         | Raise e => match h e with Some k => k.1 | None => [] end
         end.
Proof.
  unfold try_except. destruct m.2 eqn:E; [by rewrite app_nil_r|].
  destruct (h e); simpl; by rewrite ?app_nil_r.
Qed.

Lemma snd_if {A B} (b : bool) (x y : A * B) :
  (if b then x else y).2 = if b then x.2 else y.2.
Proof. by destruct b. Qed.

Lemma fst_if {A B} (b : bool) (x y : A * B) :
  (if b then x else y).1 = if b then x.1 else y.1.
Proof. by destruct b. Qed.

Lemma Ok_inj {A} (a b : A) : Ok a = Ok b -> a = b.
Proof. by intros [=]. Qed.

Ltac io_norm :=
  repeat first
    [ rewrite !snd_bind | rewrite !snd_try | rewrite !snd_if
    | rewrite !fst_bind | rewrite !fst_try | rewrite !fst_if
    | progress cbn [emit lift snd fst io_ret throw raise_ after] ].

(** ** Stripping keeps a part of the string *)

Lemma lstrip_by_In f s x : In x (lstrip_by f s) -> In x s.
Proof.
  induction s as [|c s IH]; simpl; [done|].
  destruct (f c); simpl; auto.
Qed.

Lemma strip_by_In f s x : In x (strip_by f s) -> In x s.
Proof.
  unfold strip_by, rstrip_by. rewrite <- in_rev. intros H.
  apply lstrip_by_In, in_rev in H. by apply lstrip_by_In in H.
Qed.

Lemma filter_nil_In {A} (f : A -> bool) l :
  List.filter f l = [] <-> forall x, In x l -> f x = false.
Proof.
  induction l as [|a l IH]; simpl; [done|].
  destruct (f a) eqn:E; split.
  - discriminate.
  - intros H. specialize (H a (or_introl eq_refl)). congruence.
  - intros H x [<-|Hx]; [done|]. by apply IH.
  - intros H. apply IH. auto.
Qed.

Lemma filter_lstrip_by (f g : N -> bool) s :
  (forall c, g c = true -> f c = false) ->
  List.filter f (lstrip_by g s) = List.filter f s.
Proof.
  intros Hfg. induction s as [|c s IH]; simpl; [done|].
  destruct (g c) eqn:E; [|done]. by rewrite (Hfg c E).
Qed.

Lemma filter_strip_by (f g : N -> bool) s :
  (forall c, g c = true -> f c = false) ->
  List.filter f (strip_by g s) = List.filter f s.
Proof.
  intros Hfg. unfold strip_by, rstrip_by.
  rewrite filter_rev, filter_lstrip_by, <- filter_rev, rev_involutive by done.
  by apply filter_lstrip_by.
Qed.

Lemma forallb_take {A} (f : A -> bool) n l :
  forallb f l = true -> forallb f (take n l) = true.
Proof.
  revert n; induction l as [|a l IH]; intros [|n] H; simpl in *; auto.
  apply andb_true_iff in H as [Ha Hl]. rewrite Ha. simpl. auto.
Qed.

Lemma sample_space_not_digit c :
  isspace c = true -> @re_digit sample_runtime c = false.
Proof.
  unfold isspace. cbn [re_digit sample_runtime].
  rewrite !orb_true_iff, !andb_true_iff, andb_false_iff,
    !N.leb_le, !N.eqb_eq, !N.leb_gt. lia.
Qed.

Section OCR_client.
Context {R : Runtime}.

Lemma fullmatch_digits_spec lo hi s :
  fullmatch_digits lo hi s = true <->
  (lo <= length s <= hi)%nat /\ forallb re_digit s = true.
Proof.
  unfold fullmatch_digits. rewrite !andb_true_iff, !Nat.leb_le. tauto.
Qed.

Lemma re_sub_nondigits_idem s :
  re_sub_nondigits (re_sub_nondigits s) = re_sub_nondigits s.
Proof. unfold re_sub_nondigits. apply forallb_filter_id, forallb_filter. Qed.

(** Every run of the client ends in one of two ways. *)
Lemma solve_captcha_cases URL endpoint image :
  let out := (solve_captcha_with_local_api URL endpoint image).2 in
  (exists e, out = Raise (ocr_processing_failed e)) \/
  (exists resp text raw,
      endpoint (ocr_request_url URL) image = Ok resp /\
      ocr_status resp = 200%Z /\
      ocr_body_json resp = Ok (JObject text) /\
      raw = strip (default [] text) /\ raw <> [] /\
      fullmatch_digits 1 6 (re_sub_nondigits raw) = true /\
      out = Ok (if (4 <=? length (re_sub_nondigits raw))%nat
                then take 4 (re_sub_nondigits raw)
                else re_sub_nondigits raw)).
Proof.
  unfold solve_captcha_with_local_api. io_norm.
  destruct (endpoint _ image) as [resp|e] eqn:He.
  2:{ left. destruct (exn_cls e); io_norm; eauto. }
  destruct (ocr_status resp =? 200)%Z eqn:Hs; cbn [negb].
  2:{ left. io_norm. destruct (ocr_body_text resp) as [t|e]; io_norm; [eauto|].
      destruct (exn_cls e); io_norm; eauto. }
  apply Z.eqb_eq in Hs. io_norm.
  destruct (ocr_body_json resp) as [[text|ty]|e] eqn:Hj; io_norm.
  3:{ left. destruct (exn_cls e); io_norm; eauto. }
  2:{ left. eauto. }
  destruct (strip (default [] text)) as [|c raw] eqn:Hraw; io_norm.
  { left. eauto. }
  destruct (fullmatch_digits 1 6 _) eqn:Hm; cbn [negb].
  2:{ left. eauto. }
  right. exists resp, text, (c :: raw). rewrite Hraw. repeat split; try done.
Qed.

Lemma solve_captcha_200 URL endpoint image resp text :
  endpoint (ocr_request_url URL) image = Ok resp ->
  ocr_status resp = 200%Z ->
  ocr_body_json resp = Ok (JObject text) ->
  let raw := strip (default [] text) in
  (solve_captcha_with_local_api URL endpoint image).2 =
  match raw with
  | [] => Raise (ocr_processing_failed (Exception OCRAPIError (py "OCR API returned empty text") None))
  | _ :: _ =>
    if fullmatch_digits 1 6 (re_sub_nondigits raw) then
      Ok (if (4 <=? length (re_sub_nondigits raw))%nat
          then take 4 (re_sub_nondigits raw)
          else re_sub_nondigits raw)
    else
      Raise (ocr_processing_failed (Exception OCRAPIError
                        (py "Invalid CAPTCHA format from OCR API: raw="
                           ++ repr raw ++ py ", digits="
                           ++ repr (re_sub_nondigits raw)) None))
  end.
Proof.
  intros He Hs Hj. unfold solve_captcha_with_local_api.
  io_norm. rewrite He, Hs. cbn [negb Z.eqb Pos.eqb]. io_norm. rewrite Hj. io_norm.
  destruct (strip (default [] text)) as [|c r]; io_norm; [done|].
  destruct (fullmatch_digits 1 6 _); done.
Qed.

(** C10. Whenever the OCR client returns, what it returns is a non-empty
    string of at most four decimal digits; five or six digits never come
    back, although up to six are accepted from the endpoint. *)
Theorem ocr_result_shape URL endpoint image s :
  (solve_captcha_with_local_api URL endpoint image).2 = Ok s ->
  (1 <= length s <= 4)%nat /\ forallb re_digit s = true.
Proof.
  intros Hs.
  destruct (solve_captcha_cases URL endpoint image)
    as [[e He]|(resp & text & raw & _ & _ & _ & _ & _ & Hm & Hout)];
    rewrite Hs in *; [discriminate|].
  apply fullmatch_digits_spec in Hm as [[Hlo Hhi] Hd].
  apply Ok_inj in Hout as ->.
  destruct (4 <=? _)%nat eqn:Hlen.
  - apply Nat.leb_le in Hlen. rewrite length_take. split; [lia|].
    by apply forallb_take.
  - apply Nat.leb_gt in Hlen. split; [lia|done].
Qed.

End OCR_client.

Lemma ocr_result_shape_witness :
  (1 <= length (py "1234") <= 4)%nat /\
  forallb (@re_digit sample_runtime) (py "1234") = true.
Proof.
  apply (@ocr_result_shape sample_runtime DEFAULT_LOCAL_OCR_API_URL
           (fun _ _ => Ok (ocr_answer (py "123456"))) []).
  vm_compute. reflexivity.
Defined.

Section OCR_client_failures.
Context {R : Runtime}.

(** C3, as amended. When the endpoint answers 200 with a JSON object whose
    text field holds between four and six digits once everything else is
    removed, the client returns exactly the first four of them and does not
    fail. When the text holds seven digits or more, whatever else it holds,
    the client fails with the OCR error type: it raises the [OCRAPIError] of
    its outer handler, caused by the [OCRAPIError] of the format check. The
    digit table is one in which no whitespace character is a digit, as in
    Unicode, so that the digits of the text are those of its [strip()]. *)
Theorem ocr_four_to_six_digits URL endpoint image resp text :
  (forall c, isspace c = true -> re_digit c = false) ->
  endpoint (ocr_request_url URL) image = Ok resp ->
  ocr_status resp = 200%Z ->
  ocr_body_json resp = Ok (JObject (Some text)) ->
  let digits := re_sub_nondigits text in
  let out := (solve_captcha_with_local_api URL endpoint image).2 in
  ((4 <= length digits <= 6)%nat -> out = Ok (take 4 digits))
  /\ ((7 <= length digits)%nat ->
        let cause :=
          Exception OCRAPIError
            (py "Invalid CAPTCHA format from OCR API: raw=" ++ repr (strip text)
               ++ py ", digits=" ++ repr digits) None in
        out = Raise (ocr_processing_failed cause)
        /\ exn_cls (ocr_processing_failed cause) = OCRAPIError
        /\ exn_cls cause = OCRAPIError
        /\ forall code, out <> Ok code).
Proof.
  intros Hlaw He Hs Hj. cbv zeta.
  rewrite (solve_captcha_200 _ _ _ _ _ He Hs Hj). cbv zeta. cbn [from_option id].
  assert (Hd : re_sub_nondigits (strip text) = re_sub_nondigits text)
    by (by apply filter_strip_by).
  split.
  - intros [Hlo Hhi].
    destruct (strip text) as [|c r] eqn:Hraw.
    { rewrite <- Hd in Hlo. simpl in Hlo. lia. }
    rewrite Hd.
    assert (Hm : fullmatch_digits 1 6 (re_sub_nondigits text) = true).
    { apply fullmatch_digits_spec. split; [lia|apply forallb_filter]. }
    rewrite Hm. apply Nat.leb_le in Hlo. by rewrite Hlo.
  - intros Hlong.
    destruct (strip text) as [|c r] eqn:Hraw.
    { rewrite <- Hd in Hlong. simpl in Hlong. lia. }
    rewrite Hd.
    assert (Hm : fullmatch_digits 1 6 (re_sub_nondigits text) = false).
    { destruct (fullmatch_digits 1 6 (re_sub_nondigits text)) eqn:Hm; [|done].
      apply fullmatch_digits_spec in Hm as [[_ Hhi] _]. lia. }
    rewrite Hm. repeat split; done.
Qed.

(** C9. The OCR client fails with [OCRAPIError], and with nothing else:
    whatever it raises is an [OCRAPIError] that carries the original
    exception as its cause; it does raise when the endpoint answers with a
    status other than 200, when the text field is missing, empty, blank or
    without any digit, and when the request or the reading of the body
    times out. *)
Theorem ocr_failures_are_OCRAPIError URL endpoint image :
  let out := (solve_captcha_with_local_api URL endpoint image).2 in
  let answer := endpoint (ocr_request_url URL) image in
  (forall e, out = Raise e ->
     exn_cls e = OCRAPIError /\ exists cause, e = ocr_processing_failed cause)
  /\ (forall resp, answer = Ok resp -> ocr_status resp <> 200%Z ->
        exists cause, out = Raise (ocr_processing_failed cause))
  /\ (forall resp text, answer = Ok resp -> ocr_status resp = 200%Z ->
        ocr_body_json resp = Ok (JObject text) ->
        text = None \/ default [] text = [] \/ strip (default [] text) = []
          \/ re_sub_nondigits (default [] text) = [] ->
        exists cause,
          out = Raise (ocr_processing_failed cause) /\
          exn_cls cause = OCRAPIError)
  /\ (forall e, exn_cls e = TimeoutError ->
        answer = Raise e
        \/ (exists resp, answer = Ok resp /\ ocr_status resp <> 200%Z
                         /\ ocr_body_text resp = Raise e)
        \/ (exists resp, answer = Ok resp /\ ocr_status resp = 200%Z
                         /\ ocr_body_json resp = Raise e) ->
        out = Raise (ocr_processing_failed
                       (Exception OCRAPIError (py "OCR API timeout") None))).
Proof.
  cbv zeta. split; [|split; [|split]].
  - intros e Hout.
    destruct (solve_captcha_cases URL endpoint image)
      as [[e' He']|(resp & text & raw & _ & _ & _ & _ & _ & _ & Hok)];
      rewrite Hout in *; [|discriminate].
    injection He' as ->. eauto.
  - intros resp He Hs.
    destruct (solve_captcha_cases URL endpoint image)
      as [[e' He']|(resp' & text & raw & He2 & Hs2 & _)]; [eauto|].
    congruence.
  - intros resp text He Hs Hj Hempty.
    rewrite (solve_captcha_200 _ _ _ _ _ He Hs Hj). cbv zeta.
    assert (Hnd : strip (default [] text) = [] \/
                  re_sub_nondigits (default [] text) = []).
    { destruct Hempty as [->|[->|[?|?]]]; auto. }
    clear Hempty.
    destruct (strip (default [] text)) as [|c r] eqn:Hraw; [eauto|].
    destruct Hnd as [?|Hnd]; [done|].
    assert (Hz : re_sub_nondigits (c :: r) = []).
    { apply filter_nil_In. intros x Hx. rewrite <- Hraw in Hx.
      apply strip_by_In in Hx. revert x Hx. by apply filter_nil_In. }
    rewrite Hz. eauto.
  - intros e Hc Hwhere. unfold solve_captcha_with_local_api. io_norm.
    destruct Hwhere as [He|[(resp & He & Hs & Hb)|(resp & He & Hs & Hb)]];
      rewrite He; io_norm.
    + by rewrite Hc.
    + apply Z.eqb_neq in Hs. rewrite Hs. cbn [negb]. io_norm.
      rewrite Hb. io_norm. by rewrite Hc.
    + rewrite Hs. cbn [negb Z.eqb Pos.eqb]. io_norm.
      rewrite Hb. io_norm. by rewrite Hc.
Qed.

End OCR_client_failures.

(** C3, as stated, fails: seven digits are refused, not cut to four. *)
Lemma ocr_seven_digits_refused :
  let text := py "1234567" in
  let endpoint := fun _ _ : pystr => Ok (ocr_answer text) in
  (4 <= length (@re_sub_nondigits sample_runtime text))%nat /\
  (@solve_captcha_with_local_api sample_runtime DEFAULT_LOCAL_OCR_API_URL
     endpoint []).2 <> Ok (take 4 (@re_sub_nondigits sample_runtime text)) /\
  (@solve_captcha_with_local_api sample_runtime DEFAULT_LOCAL_OCR_API_URL
     endpoint []).2
  = Raise (ocr_processing_failed
             (Exception OCRAPIError
                (py "Invalid CAPTCHA format from OCR API: raw='1234567', digits='1234567'")
                None)).
Proof.
  cbv zeta. split; [vm_compute; lia|]. split; [vm_compute; discriminate|].
  vm_compute. reflexivity.
Qed.

Lemma ocr_four_to_six_digits_witness :
  (@solve_captcha_with_local_api sample_runtime DEFAULT_LOCAL_OCR_API_URL
     (fun _ _ => Ok (ocr_answer (py " 12 34 56 "))) []).2
  = Ok (py "1234").
Proof.
  apply (proj1 (@ocr_four_to_six_digits sample_runtime DEFAULT_LOCAL_OCR_API_URL
                  (fun _ _ => Ok (ocr_answer (py " 12 34 56 "))) []
                  (ocr_answer (py " 12 34 56 ")) (py " 12 34 56 ")
                  sample_space_not_digit eq_refl eq_refl eq_refl)).
  vm_compute. lia.
Defined.

(** The cases of C9 occur. *)
Example ocr_timeout_example :
  (@solve_captcha_with_local_api sample_runtime DEFAULT_LOCAL_OCR_API_URL
     (fun _ _ => Raise (Exception TimeoutError [] None)) []).2
  = Raise (ocr_processing_failed
             (Exception OCRAPIError (py "OCR API timeout") None)).
Proof. vm_compute. reflexivity. Qed.

Example ocr_server_error_example :
  (@solve_captcha_with_local_api sample_runtime DEFAULT_LOCAL_OCR_API_URL
     (fun _ _ => Ok {| ocr_status := 500; ocr_body_text := Ok (py "boom");
                       ocr_body_json := Ok (JNotObject (py "str")) |}) []).2
  = Raise (ocr_processing_failed
             (Exception OCRAPIError (py "OCR API HTTP 500: boom") None)).
Proof. vm_compute. reflexivity. Qed.

Example ocr_no_digit_example :
  (@solve_captcha_with_local_api sample_runtime DEFAULT_LOCAL_OCR_API_URL
     (fun _ _ => Ok (ocr_answer (py " n/a "))) []).2
  = Raise (ocr_processing_failed
             (Exception OCRAPIError
                (py "Invalid CAPTCHA format from OCR API: raw='n/a', digits=''")
                None)).
Proof. vm_compute. reflexivity. Qed.

(** ** The form builder *)

Lemma contains_char_In c s : contains [c] s = true <-> In c s.
Proof.
  induction s as [|x s IH]; simpl.
  - split; [discriminate|done].
  - rewrite andb_true_r, orb_true_iff, IH, N.eqb_eq. split; intros [?|?]; auto.
Qed.

Lemma contains_char_not_In c s : contains [c] s = false <-> ~ In c s.
Proof. rewrite <- contains_char_In. by destruct (contains [c] s). Qed.

Lemma split1_char c p f :
  ~ In c p -> split1 [c] (p ++ c :: f) = Some (p, f).
Proof.
  induction p as [|x p IH]; intros Hin; simpl.
  - by rewrite N.eqb_refl.
  - destruct (N.eqb_spec c x) as [->|Hne]; [exfalso; apply Hin; by left|].
    simpl. rewrite IH; [done|]. intros ?. apply Hin. by right.
Qed.

Lemma startswith_before_char q p c f :
  ~ In c q -> startswith q (p ++ c :: f) = true -> startswith q p = true.
Proof.
  revert p. induction q as [|a q IH]; intros p Hin; [done|].
  destruct p as [|b p]; simpl.
  - rewrite andb_true_iff, N.eqb_eq. intros [-> _]. exfalso. apply Hin. by left.
  - rewrite !andb_true_iff. intros [? ?]. split; [done|].
    apply IH; [|done]. intros ?. apply Hin. by right.
Qed.

Lemma landing_directory :
  rsplit1 [CH_SLASH] BASE_URL
  = Some (py "https://prog.rarom.ro/rarpol", py "rarpol.asp").
Proof. vm_compute. reflexivity. Qed.

Lemma determine_post_url_clean p :
  ~ In CH_HASH p -> startswith HTTP_PREFIX p = false ->
  determine_post_url p =
  match p with
  | [] => BASE_URL
  | _ :: _ =>
    if startswith [CH_SLASH] p then PORTAL_HOST ++ p
    else py "https://prog.rarom.ro/rarpol" ++ [CH_SLASH] ++ p
  end.
Proof.
  intros Hh Hp. unfold determine_post_url. rewrite Hp.
  apply contains_char_not_In in Hh. rewrite Hh.
  destruct p; [done|]. by rewrite landing_directory.
Qed.

(** C5. The submission URL: an empty action gives the landing page; an
    action that starts with [http] is used as it is; otherwise whatever
    follows the first [#] is dropped and the rest is joined to the portal
    host when it starts with [/], to the directory of the landing page
    when it is any other non-empty path, and gives the landing page when
    nothing is left. *)
Theorem post_url_rules :
  determine_post_url [] = BASE_URL
  /\ (forall action, startswith HTTP_PREFIX action = true ->
        determine_post_url action = action)
  /\ (forall path, ~ In CH_HASH path ->
        determine_post_url (CH_SLASH :: path)
        = py "https://prog.rarom.ro" ++ CH_SLASH :: path)
  /\ (forall path, path <> [] -> ~ In CH_HASH path ->
        startswith HTTP_PREFIX path = false ->
        startswith [CH_SLASH] path = false ->
        determine_post_url path
        = py "https://prog.rarom.ro/rarpol" ++ [CH_SLASH] ++ path)
  /\ (forall path fragment, ~ In CH_HASH path ->
        startswith HTTP_PREFIX path = false ->
        determine_post_url (path ++ CH_HASH :: fragment)
        = determine_post_url path)
  /\ BASE_URL = py "https://prog.rarom.ro/rarpol" ++ [CH_SLASH] ++ py "rarpol.asp".
Proof.
  split; [done|]. split.
  { intros action Ha. unfold determine_post_url. by rewrite Ha. }
  split.
  { intros path Hh. rewrite determine_post_url_clean; [done| |done].
    intros [Hx|Hx]; [discriminate|done]. }
  split.
  { intros path Hne Hh Hp Hs. rewrite determine_post_url_clean by done.
    destruct path; [done|]. by rewrite Hs. }
  split; [|by vm_compute].
  intros path fragment Hh Hp.
  rewrite (determine_post_url_clean path) by done.
  unfold determine_post_url.
  assert (Hp' : startswith HTTP_PREFIX (path ++ CH_HASH :: fragment) = false).
  { destruct (startswith HTTP_PREFIX (path ++ _)) eqn:E; [|done].
    apply startswith_before_char in E; [congruence|].
    vm_compute. intuition discriminate. }
  rewrite Hp'.
  assert (Hc : contains [CH_HASH] (path ++ CH_HASH :: fragment) = true).
  { apply contains_char_In, in_or_app. right. by left. }
  rewrite Hc, split1_char by done.
  destruct path; [done|]. by rewrite landing_directory.
Qed.

Example post_url_examples :
  map determine_post_url
      [ []; py "http://rar.example/q.asp#top"; py "/rarpol/q.asp#top";
        py "q.asp?x=1#top"; py "#top" ]
  = [ py "https://prog.rarom.ro/rarpol/rarpol.asp";
      py "http://rar.example/q.asp#top";
      py "https://prog.rarom.ro/rarpol/q.asp";
      py "https://prog.rarom.ro/rarpol/q.asp?x=1";
      py "https://prog.rarom.ro/rarpol/rarpol.asp" ].
Proof. vm_compute. reflexivity. Qed.

Lemma field_names_distinct :
  F_NR_ID <> F_VERIF_COD /\ F_NR_ID <> F_ANTIROBOT /\ F_NR_ID <> F_TRIMITE
  /\ F_VERIF_COD <> F_ANTIROBOT /\ F_VERIF_COD <> F_TRIMITE
  /\ F_ANTIROBOT <> F_TRIMITE.
Proof. repeat split; discriminate. Qed.

Lemma override_captcha_insert (code : pystr) (form_data : gmap pystr pystr) :
  override_captcha code form_data = <[captcha_field form_data := code]> form_data.
Proof.
  unfold override_captcha, captcha_field.
  destruct (form_data !! F_VERIF_COD); [done|].
  by destruct (form_data !! F_ANTIROBOT).
Qed.

Lemma lookup_fill_submit (form_data : gmap pystr pystr) k :
  fill_submit form_data !! k =
  if bool_decide (k = F_TRIMITE /\ form_data !! F_TRIMITE = Some [])
  then Some SUBMIT_LABEL else form_data !! k.
Proof.
  unfold fill_submit. case_bool_decide as Hk.
  - destruct Hk as [-> ->]. by rewrite lookup_insert_eq.
  - destruct (form_data !! F_TRIMITE) as [[|c v]|] eqn:E; try done.
    rewrite lookup_insert_ne; [done|]. intros <-. by apply Hk.
Qed.

Section Form_builder.
Context {R : Runtime}.

Lemma override_vin_insert (vin : pystr) (form_data : gmap pystr pystr) :
  override_vin vin form_data = <[F_NR_ID := str_upper vin]> form_data.
Proof. unfold override_vin. by destruct (form_data !! F_NR_ID). Qed.

Lemma captcha_field_override_vin (vin : pystr) (form_data : gmap pystr pystr) :
  captcha_field (override_vin vin form_data) = captcha_field form_data.
Proof.
  destruct field_names_distinct as (H1 & H2 & _).
  rewrite override_vin_insert. unfold captcha_field.
  by rewrite !lookup_insert_ne.
Qed.

Lemma build_form_data_located (soup : node) (vin code : pystr) (form_el : node) :
  locate_form soup = Some form_el ->
  _build_form_data_from_page soup vin code =
  Ok (determine_post_url (default [] (tag_get form_el (py "action"))),
      fill_submit
        (override_captcha code
           (override_vin vin (collect_inputs (find_all form_el (py "input")))))).
Proof. intros H. unfold _build_form_data_from_page. by rewrite H. Qed.

(** C4, as amended. Building the form data leaves every field as it was
    extracted, except the VIN field [nr_id], the one CAPTCHA field the code
    is written to, and the submit button [trimite] when the page gives it
    an empty value, which is filled with the default label; no other
    field is added. *)
Theorem build_form_data_frame (soup : node) (vin code : pystr) (form_el : node) :
  locate_form soup = Some form_el ->
  let extracted := collect_inputs (find_all form_el (py "input")) in
  exists post_url form_data,
    _build_form_data_from_page soup vin code = Ok (post_url, form_data)
    /\ (forall k, k <> F_NR_ID -> k <> captcha_field extracted ->
          ~ (k = F_TRIMITE /\ extracted !! F_TRIMITE = Some []) ->
          form_data !! k = extracted !! k)
    /\ (extracted !! F_TRIMITE = Some [] ->
          form_data !! F_TRIMITE = Some SUBMIT_LABEL).
Proof.
  intros Hform extracted. eexists _, _. split.
  { by apply build_form_data_located. }
  destruct field_names_distinct as (H1 & H2 & H3 & H4 & H5 & H6).
  assert (Hcf : captcha_field extracted <> F_TRIMITE).
  { unfold captcha_field. repeat case_match; congruence. }
  assert (Hsub : forall v,
    override_captcha code (override_vin vin extracted) !! F_TRIMITE = Some v
    <-> extracted !! F_TRIMITE = Some v).
  { intros v. rewrite override_captcha_insert, captcha_field_override_vin,
      override_vin_insert.
    rewrite lookup_insert_ne by exact Hcf. rewrite lookup_insert_ne by exact H3.
    done. }
  split.
  - intros k Hk1 Hk2 Hk3. rewrite lookup_fill_submit.
    case_bool_decide as Hd.
    { destruct Hd as [-> Hd]. apply Hsub in Hd. exfalso. by apply Hk3. }
    rewrite override_captcha_insert, captcha_field_override_vin,
      override_vin_insert.
    rewrite lookup_insert_ne by (intros E; by apply Hk2).
    rewrite lookup_insert_ne by (intros E; by apply Hk1). done.
  - intros He. rewrite lookup_fill_submit. apply Hsub in He.
    by rewrite bool_decide_eq_true_2.
Qed.

(** C6, as amended. The code goes to [verif_cod] when the form has that
    field, else to [antirobot] when the form has that one, else to a new
    [verif_cod]; the other of the two names is left as extracted (or
    absent). Hence exactly one of them holds the code, unless the page has
    both and its [antirobot] field already carried that very value. *)
Theorem captcha_field_selection (soup : node) (vin code : pystr) (form_el : node) :
  locate_form soup = Some form_el ->
  let extracted := collect_inputs (find_all form_el (py "input")) in
  exists post_url form_data,
    _build_form_data_from_page soup vin code = Ok (post_url, form_data)
    /\ match extracted !! F_VERIF_COD, extracted !! F_ANTIROBOT with
       | Some _, old =>
         form_data !! F_VERIF_COD = Some code /\ form_data !! F_ANTIROBOT = old
       | None, Some _ =>
         form_data !! F_ANTIROBOT = Some code /\ form_data !! F_VERIF_COD = None
       | None, None =>
         form_data !! F_VERIF_COD = Some code /\ form_data !! F_ANTIROBOT = None
       end
    /\ (extracted !! F_VERIF_COD = None \/ extracted !! F_ANTIROBOT <> Some code ->
          (form_data !! F_VERIF_COD = Some code /\ form_data !! F_ANTIROBOT <> Some code)
          \/ (form_data !! F_VERIF_COD <> Some code /\ form_data !! F_ANTIROBOT = Some code)).
Proof.
  intros Hform extracted. eexists _, _. split.
  { by apply build_form_data_located. }
  destruct field_names_distinct as (H1 & H2 & H3 & H4 & H5 & H6).
  assert (Hlk : forall k, k = F_VERIF_COD \/ k = F_ANTIROBOT ->
    fill_submit (override_captcha code (override_vin vin extracted)) !! k
    = if bool_decide (k = captcha_field extracted) then Some code
      else extracted !! k).
  { intros k Hk. rewrite lookup_fill_submit.
    rewrite bool_decide_eq_false_2 by (intros [-> _]; destruct Hk; congruence).
    rewrite override_captcha_insert, captcha_field_override_vin.
    case_bool_decide as Hd.
    - subst k. by rewrite lookup_insert_eq.
    - rewrite lookup_insert_ne by congruence.
      rewrite override_vin_insert, lookup_insert_ne; [done|].
      destruct Hk; congruence. }
  rewrite !Hlk by auto. unfold captcha_field.
  destruct (extracted !! F_VERIF_COD) as [v|] eqn:Ev;
    destruct (extracted !! F_ANTIROBOT) as [a|] eqn:Ea;
    repeat case_bool_decide; try congruence; split; try done.
  - intros [?|Hne]; [done|]. left. split; done.
  - intros _. left. split; done.
  - intros _. right. split; done.
  - intros _. left. split; done.
Qed.

End Form_builder.

(** C4, as stated, fails: the submit button of the sample page is extracted
    with an empty value and posted with the default label, although it is
    neither the VIN field nor a CAPTCHA field. *)
Lemma submit_button_is_rewritten :
  let extracted := collect_inputs (find_all sample_form (py "input")) in
  exists post_url form_data,
    @_build_form_data_from_page sample_runtime sample_landing_soup
       (py "wvw1k73zxmw000001") (py "1234") = Ok (post_url, form_data)
    /\ locate_form sample_landing_soup = Some sample_form
    /\ F_TRIMITE <> F_NR_ID /\ F_TRIMITE <> F_VERIF_COD
    /\ F_TRIMITE <> F_ANTIROBOT
    /\ extracted !! F_TRIMITE = Some []
    /\ form_data !! F_TRIMITE = Some (py "Caută")
    /\ form_data !! F_TRIMITE <> extracted !! F_TRIMITE.
Proof.
  cbv zeta. eexists _, _. split; [vm_compute; reflexivity|].
  repeat split; try discriminate; vm_compute; try reflexivity; discriminate.
Qed.

(** C6, as stated, fails: on a page that has both CAPTCHA fields, the old
    one pre-filled with the digits of the code, both hold the code after
    the build. *)
Lemma two_captcha_fields_hold_the_code :
  exists post_url form_data,
    @_build_form_data_from_page sample_runtime both_captcha_fields_soup
       (py "wvw1k73zxmw000001") (py "1234") = Ok (post_url, form_data)
    /\ form_data !! F_VERIF_COD = Some (py "1234")
    /\ form_data !! F_ANTIROBOT = Some (py "1234").
Proof.
  eexists _, _. split; [vm_compute; reflexivity|].
  split; vm_compute; reflexivity.
Qed.

Lemma build_form_data_frame_witness :
  let extracted := collect_inputs (find_all sample_form (py "input")) in
  exists post_url form_data,
    @_build_form_data_from_page sample_runtime sample_landing_soup
       (py "wvw1k73zxmw000001") (py "1234") = Ok (post_url, form_data)
    /\ (forall k, k <> F_NR_ID -> k <> captcha_field extracted ->
          ~ (k = F_TRIMITE /\ extracted !! F_TRIMITE = Some []) ->
          form_data !! k = extracted !! k)
    /\ (extracted !! F_TRIMITE = Some [] ->
          form_data !! F_TRIMITE = Some SUBMIT_LABEL).
Proof.
  apply (@build_form_data_frame sample_runtime sample_landing_soup
           (py "wvw1k73zxmw000001") (py "1234") sample_form).
  vm_compute. reflexivity.
Defined.

Lemma captcha_field_selection_witness :
  let form_el :=
    Tag (py "form") (<[py "name" := py "frm"]> ∅)
        [ input_tag (py "verif_cod") []; input_tag (py "antirobot") (py "1234") ] in
  let extracted := collect_inputs (find_all form_el (py "input")) in
  exists post_url form_data,
    @_build_form_data_from_page sample_runtime both_captcha_fields_soup
       (py "wvw1k73zxmw000001") (py "9999") = Ok (post_url, form_data)
    /\ match extracted !! F_VERIF_COD, extracted !! F_ANTIROBOT with
       | Some _, old =>
         form_data !! F_VERIF_COD = Some (py "9999") /\ form_data !! F_ANTIROBOT = old
       | None, Some _ =>
         form_data !! F_ANTIROBOT = Some (py "9999") /\ form_data !! F_VERIF_COD = None
       | None, None =>
         form_data !! F_VERIF_COD = Some (py "9999") /\ form_data !! F_ANTIROBOT = None
       end
    /\ (extracted !! F_VERIF_COD = None \/ extracted !! F_ANTIROBOT <> Some (py "9999") ->
          (form_data !! F_VERIF_COD = Some (py "9999")
           /\ form_data !! F_ANTIROBOT <> Some (py "9999"))
          \/ (form_data !! F_VERIF_COD <> Some (py "9999")
              /\ form_data !! F_ANTIROBOT = Some (py "9999"))).
Proof.
  apply (@captcha_field_selection sample_runtime both_captcha_fields_soup
           (py "wvw1k73zxmw000001") (py "9999")).
  vm_compute. reflexivity.
Defined.

(** ** Splitting and stripping *)

Lemma startswith_app p s : startswith p (p ++ s) = true.
Proof. induction p as [|a p IH]; simpl; [done|]. by rewrite N.eqb_refl. Qed.

Lemma contains_cons_false p x s :
  contains p (x :: s) = false ->
  startswith p (x :: s) = false /\ contains p s = false.
Proof. simpl. by rewrite orb_false_iff. Qed.

(** A separator that cannot overlap itself is found where it first stands. *)
Lemma split1_first c q pre post :
  ~ In c q -> contains (c :: q) pre = false ->
  split1 (c :: q) (pre ++ (c :: q) ++ post) = Some (pre, post).
Proof.
  intros Hcq. induction pre as [|x pre IH]; intros Hpre.
  - pose proof (startswith_app (c :: q) post) as Hs.
    change ([] ++ (c :: q) ++ post) with (c :: q ++ post).
    change ((c :: q) ++ post) with (c :: q ++ post) in Hs.
    cbn [split1]. rewrite Hs. cbn [length drop]. by rewrite drop_app_length.
  - apply contains_cons_false in Hpre as [Hs Hc].
    assert (Hno : startswith (c :: q) (x :: pre ++ c :: q ++ post) = false).
    { destruct (startswith (c :: q) (x :: pre ++ _)) eqn:E; [|done].
      simpl in E. apply andb_true_iff in E as [Ex Eq].
      apply startswith_before_char in Eq; [|done].
      simpl in Hs. rewrite Ex, Eq in Hs. done. }
    specialize (IH Hc).
    change ((x :: pre) ++ (c :: q) ++ post) with (x :: pre ++ c :: q ++ post).
    change (pre ++ (c :: q) ++ post) with (pre ++ c :: q ++ post) in IH.
    cbn [split1]. rewrite Hno, IH. done.
Qed.

Lemma lstrip_by_all f a s :
  forallb f a = true -> lstrip_by f (a ++ s) = lstrip_by f s.
Proof.
  induction a as [|x a IH]; simpl; [done|].
  intros [Hx Ha]%andb_true_iff. rewrite Hx. auto.
Qed.

Lemma lstrip_by_none f s :
  forallb (fun c => negb (f c)) s = true -> forall t, s <> [] ->
  lstrip_by f (s ++ t) = s ++ t.
Proof.
  destruct s as [|x s]; [done|]. simpl.
  intros [Hx _]%andb_true_iff t _. by destruct (f x).
Qed.

Lemma forallb_rev_true {A} (f : A -> bool) l :
  forallb f l = true -> forallb f (rev l) = true.
Proof.
  rewrite !forallb_forall. intros H x Hx. apply H. by apply in_rev.
Qed.

Lemma strip_by_core f a core b :
  forallb f a = true -> forallb f b = true ->
  forallb (fun c => negb (f c)) core = true ->
  strip_by f (a ++ core ++ b) = core.
Proof.
  intros Ha Hb Hcore. unfold strip_by, rstrip_by.
  rewrite lstrip_by_all by done.
  destruct core as [|x core].
  - simpl. rewrite <- (app_nil_r b), lstrip_by_all by done. done.
  - rewrite lstrip_by_none by done.
    rewrite rev_app_distr, lstrip_by_all by (by apply forallb_rev_true).
    rewrite <- (app_nil_r (rev (x :: core))), lstrip_by_none.
    + by rewrite app_nil_r, rev_involutive.
    + by apply forallb_rev_true.
    + intros E. apply (f_equal (@length N)) in E.
      rewrite length_rev in E. done.
Qed.

Lemma split_ws_from_token cur tok rest :
  forallb (fun c => negb (isspace c)) tok = true ->
  split_ws_from cur (tok ++ rest) = split_ws_from (rev tok ++ cur) rest.
Proof.
  revert cur. induction tok as [|x tok IH]; intros cur; simpl; [done|].
  intros [Hx Ht]%andb_true_iff. destruct (isspace x); [done|].
  rewrite IH by done. by rewrite <- app_assoc.
Qed.

Lemma split_ws_from_spaces ws s :
  forallb isspace ws = true -> split_ws_from [] (ws ++ s) = split_ws_from [] s.
Proof.
  induction ws as [|x ws IH]; simpl; [done|].
  intros [Hx Hw]%andb_true_iff. rewrite Hx. auto.
Qed.

(** The first token of [s.split()]. *)
Lemma split_ws_first ws tok rest :
  forallb isspace ws = true ->
  forallb (fun c => negb (isspace c)) tok = true -> tok <> [] ->
  rest = [] \/ (exists c r, rest = c :: r /\ isspace c = true) ->
  head (split_ws (ws ++ tok ++ rest)) = Some tok.
Proof.
  intros Hws Htok Hne Hrest. unfold split_ws.
  rewrite split_ws_from_spaces, split_ws_from_token by done.
  rewrite app_nil_r.
  assert (Hr : rev tok <> []).
  { intros E. apply Hne. by rewrite <- (rev_involutive tok), E. }
  destruct Hrest as [->|(c & r & -> & Hc)]; simpl.
  - destruct (rev tok) eqn:E; [done|]. rewrite <- E. simpl.
    by rewrite rev_involutive.
  - rewrite Hc. destruct (rev tok) eqn:E; [done|]. rewrite <- E. simpl.
    by rewrite rev_involutive.
Qed.

Lemma split_char_none c p :
  forallb (fun x => negb (x =? c)) p = true -> split_char c p = [p].
Proof.
  induction p as [|x p IH]; simpl; [done|].
  intros [Hx Hp]%andb_true_iff. apply negb_true_iff in Hx. rewrite Hx.
  by rewrite IH.
Qed.

Lemma split_char_at c p s :
  forallb (fun x => negb (x =? c)) p = true ->
  split_char c (p ++ c :: s) = p :: split_char c s.
Proof.
  induction p as [|x p IH]; simpl.
  - by rewrite N.eqb_refl.
  - intros [Hx Hp]%andb_true_iff. apply negb_true_iff in Hx. rewrite Hx.
    by rewrite IH.
Qed.

Lemma forallb_impl {A} (f g : A -> bool) l :
  (forall x, f x = true -> g x = true) ->
  forallb f l = true -> forallb g l = true.
Proof.
  intros Hfg. rewrite !forallb_forall. auto.
Qed.

Lemma date_part_no_space s :
  date_part s = true -> forallb (fun c => negb (isspace c)) s = true.
Proof.
  apply forallb_impl. intros x. rewrite !andb_true_iff. tauto.
Qed.

Lemma date_part_no_dash s :
  date_part s = true -> forallb (fun c => negb (c =? CH_DASH)) s = true.
Proof.
  apply forallb_impl. intros x. rewrite !andb_true_iff. tauto.
Qed.

Lemma date_part_no_dot s :
  date_part s = true -> forallb (fun c => negb (CH_DOT =? c)) s = true.
Proof.
  apply forallb_impl. intros x. rewrite !andb_true_iff.
  intros [_ H]. by rewrite N.eqb_sym.
Qed.

Lemma dots_no_space s :
  forallb (N.eqb CH_DOT) s = true -> forallb (fun c => negb (isspace c)) s = true.
Proof.
  apply forallb_impl. intros x Hx. apply N.eqb_eq in Hx. by subst x.
Qed.

(** What the new-format parser makes of a date token that follows the
    first occurrence of the marker. *)
Lemma new_format_date_token pre ws dots1 day month year dots2 rest :
  contains VALID_UNTIL_MARKER pre = false ->
  forallb isspace ws = true ->
  forallb (N.eqb CH_DOT) dots1 = true -> forallb (N.eqb CH_DOT) dots2 = true ->
  date_part day = true -> date_part month = true -> date_part year = true ->
  rest = [] \/ (exists c r, rest = c :: r /\ isspace c = true) ->
  new_format_date
    (pre ++ VALID_UNTIL_MARKER ++ ws ++ dots1 ++ day ++ [CH_DASH] ++ month
         ++ [CH_DASH] ++ year ++ dots2 ++ rest)
  = Ok (year ++ [CH_DASH] ++ default (py "01") (MONTH_MAP !! month)
             ++ [CH_DASH] ++ zfill 2 day).
Proof.
  intros Hpre Hws Hd1 Hd2 Hday Hmonth Hyear Hrest. unfold new_format_date.
  set (core := day ++ [CH_DASH] ++ month ++ [CH_DASH] ++ year).
  set (tok := dots1 ++ core ++ dots2).
  replace (ws ++ dots1 ++ day ++ [CH_DASH] ++ month ++ [CH_DASH] ++ year
              ++ dots2 ++ rest) with (ws ++ tok ++ rest)
    by (unfold tok, core; by rewrite <- !app_assoc).
  unfold VALID_UNTIL_MARKER at 1 2.
  rewrite split1_first; [|vm_compute; intuition discriminate|exact Hpre].
  assert (Hcore_ns : forallb (fun c => negb (isspace c)) core = true).
  { unfold core. rewrite !forallb_app, (date_part_no_space day),
      (date_part_no_space month), (date_part_no_space year) by done. done. }
  assert (Htok : forallb (fun c => negb (isspace c)) tok = true).
  { unfold tok. rewrite !forallb_app, (dots_no_space dots1),
      (dots_no_space dots2), Hcore_ns by done. done. }
  assert (Hne : tok <> []).
  { unfold tok, core. intros E. apply (f_equal (@length N)) in E.
    rewrite !length_app in E. simpl in E. lia. }
  pose proof (split_ws_first ws tok rest Hws Htok Hne Hrest) as Hhead.
  destruct (split_ws (ws ++ tok ++ rest)) as [|first others]; [done|].
  injection Hhead as ->.
  assert (Hstrip : strip tok = tok).
  { pose proof (strip_by_core isspace [] tok [] eq_refl eq_refl Htok) as H.
    cbn [app] in H. by rewrite app_nil_r in H. }
  rewrite Hstrip. unfold tok at 1.
  rewrite strip_by_core; [|done|done|].
  2:{ unfold core. rewrite !forallb_app, (date_part_no_dot day),
        (date_part_no_dot month), (date_part_no_dot year) by done. done. }
  unfold core.
  change (day ++ [CH_DASH] ++ month ++ [CH_DASH] ++ year)
    with (day ++ CH_DASH :: month ++ CH_DASH :: year).
  rewrite !split_char_at, split_char_none by (by apply date_part_no_dash).
  done.
Qed.

(** ** The result parser *)

Lemma contains_unfold p s :
  contains p s
  = startswith p s || match s with [] => false | _ :: r => contains p r end.
Proof. by destruct s. Qed.

Lemma contains_middle p pre post : contains p (pre ++ p ++ post) = true.
Proof.
  induction pre as [|x pre IH]; cbn [app]; rewrite contains_unfold.
  - by rewrite startswith_app.
  - rewrite IH. apply orb_true_r.
Qed.

Section Result_parser.
Context {R : Runtime}.

(** C7. When the lower-cased text of the result page contains the
    no-record marker, the parser gives status "Not Found" and expiration
    date "Unknown"; when it does not, the status is "Valid". *)
Theorem no_record_status (result_text : pystr) :
  let lower := str_lower (content_text result_text) in
  (contains NO_RECORD_MARKER lower = true ->
     parse_results result_text = (py "Not Found", py "Unknown"))
  /\ (contains NO_RECORD_MARKER lower = false ->
        (parse_results result_text).1 = py "Valid").
Proof.
  cbv zeta. unfold parse_results. split; intros ->; cbn [negb]; done.
Qed.

(** C8. On a result page without the no-record marker whose lower-cased
    text has, after the first "valabilă până la", a token
    day-month-year (dots around it are dropped), the expiration date is
    year-MM-DD: MM is the month table's entry for the abbreviation, "01"
    when it has none, and DD is the day filled with zeros to two
    characters. So "valabilă până la 5-mar-2026" gives 2026-03-05. When
    the parsing of the token raises, the date stays "Unknown", the status
    stays "Valid", and the fetch still returns its record. *)
Theorem new_format_expiration_date (result_text : pystr) :
  let lower := str_lower (content_text result_text) in
  contains NO_RECORD_MARKER lower = false ->
  (forall pre ws dots1 day month year dots2 rest,
      lower = pre ++ VALID_UNTIL_MARKER ++ ws ++ dots1 ++ day ++ [CH_DASH]
                  ++ month ++ [CH_DASH] ++ year ++ dots2 ++ rest ->
      contains VALID_UNTIL_MARKER pre = false ->
      forallb isspace ws = true ->
      forallb (N.eqb CH_DOT) dots1 = true ->
      forallb (N.eqb CH_DOT) dots2 = true ->
      date_part day = true -> date_part month = true -> date_part year = true ->
      rest = [] \/ (exists c r, rest = c :: r /\ isspace c = true) ->
      parse_results result_text
      = (py "Valid",
         year ++ [CH_DASH] ++ default (py "01") (MONTH_MAP !! month)
              ++ [CH_DASH] ++ zfill 2 day))
  /\ (forall pre dots rest,
        lower = pre ++ py "valabilă până la 5-mar-2026" ++ dots ++ rest ->
        contains VALID_UNTIL_MARKER pre = false ->
        forallb (N.eqb CH_DOT) dots = true ->
        rest = [] \/ (exists c r, rest = c :: r /\ isspace c = true) ->
        parse_results result_text = (py "Valid", py "2026-03-05"))
  /\ (forall e,
        contains VALID_UNTIL_MARKER lower = true ->
        new_format_date lower = Raise e ->
        parse_results result_text = (py "Valid", py "Unknown")
        /\ forall URL world now vin,
             (retry_loop URL world vin [1; 2; 3]%nat []).2 = Ok result_text ->
             (fetch_itp URL world now vin).2
             = Ok {| rec_vin := vin; rec_status := py "Valid";
                     rec_expiration_date := py "Unknown";
                     rec_last_checked := now |}).
Proof.
  cbv zeta. intros Hno.
  assert (Hgen : forall pre ws dots1 day month year dots2 rest,
    str_lower (content_text result_text)
      = pre ++ VALID_UNTIL_MARKER ++ ws ++ dots1 ++ day ++ [CH_DASH]
            ++ month ++ [CH_DASH] ++ year ++ dots2 ++ rest ->
    contains VALID_UNTIL_MARKER pre = false ->
    forallb isspace ws = true ->
    forallb (N.eqb CH_DOT) dots1 = true ->
    forallb (N.eqb CH_DOT) dots2 = true ->
    date_part day = true -> date_part month = true -> date_part year = true ->
    rest = [] \/ (exists c r, rest = c :: r /\ isspace c = true) ->
    parse_results result_text
    = (py "Valid",
       year ++ [CH_DASH] ++ default (py "01") (MONTH_MAP !! month)
            ++ [CH_DASH] ++ zfill 2 day)).
  { intros pre ws dots1 day month year dots2 rest Hl Hpre Hws Hd1 Hd2 Hd Hm Hy Hr.
    unfold parse_results. rewrite Hno. cbn [negb].
    assert (Hc : contains VALID_UNTIL_MARKER (str_lower (content_text result_text)) = true).
    { rewrite Hl. apply contains_middle. }
    rewrite Hc, Hl, new_format_date_token by done. done. }
  split; [exact Hgen|]. split.
  - intros pre dots rest Hl Hpre Hdots Hrest.
    rewrite (Hgen pre (py " ") [] (py "5") (py "mar") (py "2026") dots rest);
      done.
  - intros e Hc He. assert (Hp : parse_results result_text = (py "Valid", py "Unknown")).
    { unfold parse_results. by rewrite Hno, Hc, He. }
    split; [exact Hp|].
    intros URL world now vin Hloop. unfold fetch_itp. io_norm.
    rewrite Hloop. unfold record_of. by rewrite Hp.
Qed.

End Result_parser.

Lemma new_format_expiration_date_witness :
  @parse_results sample_runtime valid_page = (py "Valid", py "2026-03-05").
Proof.
  destruct (@new_format_expiration_date sample_runtime valid_page)
    as (_ & Hex & _).
  - vm_compute. reflexivity.
  - apply (Hex (py "inspectia tehnica periodica este ") (py ".") (py " ")).
    + vm_compute. reflexivity.
    + vm_compute. reflexivity.
    + vm_compute. reflexivity.
    + right. exists 32, []. split; vm_compute; reflexivity.
Defined.

(** The month table, the default for an abbreviation it lacks, and a token
    whose parsing raises. *)
Example month_table_examples :
  map (fun m => default (py "01") (MONTH_MAP !! m))
      [ py "ian"; py "feb"; py "mar"; py "apr"; py "mai"; py "iun"; py "iul";
        py "aug"; py "sept"; py "oct"; py "nov"; py "dec"; py "sep"; py "xyz" ]
  = [ py "01"; py "02"; py "03"; py "04"; py "05"; py "06"; py "07";
      py "08"; py "09"; py "10"; py "11"; py "12"; py "01"; py "01" ].
Proof. vm_compute. reflexivity. Qed.

Example parse_results_examples :
  map (@parse_results sample_runtime)
      [ py "Valabilă până la 5-mar-2026";
        py "ITP valabilă până la   ..12-sept-2027.. ";
        py "valabilă până la 7-sep-2027";
        py "valabilă până la";
        py "valabilă până la 5-mar";
        py "Nu a fost găsită nicio înregistrare" ]
  = [ (py "Valid", py "2026-03-05");
      (py "Valid", py "2027-09-12");
      (py "Valid", py "2027-01-07");
      (py "Valid", py "Unknown");
      (py "Valid", py "Unknown");
      (py "Not Found", py "Unknown") ].
Proof. vm_compute. reflexivity. Qed.

(** ** The orchestrator *)

Lemma Forall_bind {A B} (P : event -> Prop) (f : A -> io B) (m : io A) :
  Forall P m.1 -> (forall a, m.2 = Ok a -> Forall P (f a).1) ->
  Forall P (io_bind f m).1.
Proof.
  intros Hm Hf. rewrite fst_bind. apply Forall_app. split; [done|].
  destruct m.2; [by apply Hf|constructor].
Qed.

Lemma Forall_try {A} (P : event -> Prop) (m : io A) h :
  Forall P m.1 ->
  (forall e k, m.2 = Raise e -> h e = Some k -> Forall P k.1) ->
  Forall P (try_except m h).1.
Proof.
  intros Hm Hh. rewrite fst_try. apply Forall_app. split; [done|].
  destruct m.2 as [a|e]; [constructor|].
  destruct (h e) as [k|] eqn:E; [by eapply Hh|constructor].
Qed.

Lemma checked_body_log {A} (r : reply A) what : (checked_body r what).1 = [].
Proof.
  unfold checked_body. destruct r as [[status body]|e]; [|done].
  by destruct (negb _).
Qed.

Section Orchestrator.
Context {R : Runtime}.

Lemma build_form_data_posted_captcha (soup : node) (vin code url : pystr)
    (data : gmap pystr pystr) :
  _build_form_data_from_page soup vin code = Ok (url, data) ->
  posted_captcha data = Some code.
Proof.
  unfold _build_form_data_from_page.
  destruct (locate_form soup) as [form_el|]; [|discriminate].
  intros [= _ <-]. unfold posted_captcha.
  destruct field_names_distinct as (H1 & H2 & H3 & H4 & H5 & H6).
  set (extracted := collect_inputs _).
  rewrite !lookup_fill_submit.
  rewrite !bool_decide_eq_false_2 by (intros [? _]; congruence).
  rewrite override_captcha_insert, captcha_field_override_vin,
    override_vin_insert.
  unfold captcha_field.
  destruct (extracted !! F_VERIF_COD) eqn:Ev.
  { by rewrite lookup_insert_eq. }
  destruct (extracted !! F_ANTIROBOT) eqn:Ea.
  - rewrite lookup_insert_ne by congruence.
    rewrite lookup_insert_ne by congruence. rewrite Ev.
    by rewrite lookup_insert_eq.
  - by rewrite lookup_insert_eq.
Qed.

Lemma solve_captcha_log URL endpoint image :
  Forall acceptable_event (solve_captcha_with_local_api URL endpoint image).1.
Proof.
  unfold solve_captcha_with_local_api.
  apply Forall_try; [apply Forall_try|].
  - apply Forall_bind; [repeat constructor|]. intros _ _.
    apply Forall_bind; [constructor|]. intros resp _.
    destruct (negb _).
    + apply Forall_bind; [constructor|]. intros; constructor.
    + apply Forall_bind; [constructor|]. intros data _.
      apply Forall_bind; [destruct data; constructor|]. intros value _.
      destruct (strip value); [constructor|].
      destruct (negb _); constructor.
  - intros e k _. destruct (exn_cls e); intros [= <-]; constructor.
  - intros e k _ [= <-]. constructor.
Qed.

Lemma attempt_request_log URL env vin n :
  Forall acceptable_event (attempt_request URL env vin n).1.
Proof.
  unfold attempt_request.
  apply Forall_bind; [repeat constructor|]. intros _ _.
  apply Forall_bind; [by rewrite checked_body_log|]. intros html _.
  apply Forall_bind.
  { destruct (find_attr _ _ _ _) as [img|]; [|constructor].
    destruct (tag_get img _) as [[|c s]|]; constructor. }
  intros captcha_src _.
  apply Forall_bind; [repeat constructor|]. intros _ _.
  apply Forall_bind; [by rewrite checked_body_log|]. intros captcha_content _.
  apply Forall_bind; [repeat constructor|]. intros _ _.
  apply Forall_bind.
  { apply Forall_try; [apply solve_captcha_log|].
    intros e k _. destruct (exn_cls e); intros [= <-]; constructor. }
  intros captcha_text Hsolve.
  destruct captcha_text as [|c t]; [constructor|].
  destruct (negb _) eqn:Hm; [constructor|].
  apply negb_false_iff in Hm.
  apply Forall_bind; [constructor|]. intros [post_url form_data] Hbuild.
  apply Forall_bind; [|intros; by rewrite checked_body_log].
  cbn [lift snd] in Hbuild. apply build_form_data_posted_captcha in Hbuild.
  repeat constructor. exists (re_sub_nondigits (c :: t)).
  split; [done|]. rewrite re_sub_nondigits_idem. split; [|done].
  apply fullmatch_digits_spec in Hm as [[Hlen _] _].
  intros E. rewrite E in Hlen. simpl in Hlen. lia.
Qed.

Lemma attempt_body_log URL env vin n :
  (attempt_body URL env vin n).1 = (attempt_request URL env vin n).1.
Proof.
  unfold attempt_body. rewrite fst_bind.
  destruct (attempt_request URL env vin n).2; [|by rewrite app_nil_r].
  destruct (contains _ _); by rewrite app_nil_r.
Qed.

Lemma retry_loop_log URL world vin attempts result_text :
  Forall acceptable_event (retry_loop URL world vin attempts result_text).1.
Proof.
  revert result_text. induction attempts as [|n rest IH]; intros result_text.
  { constructor. }
  cbn [retry_loop]. apply Forall_try.
  { rewrite attempt_body_log. apply attempt_request_log. }
  intros e k _. destruct (exn_cls e); try discriminate. intros [= <-].
  destruct (n =? 3)%nat; [constructor|].
  apply Forall_bind; [repeat constructor|]. intros _ _. apply IH.
Qed.

Lemma fetch_itp_log URL world now vin :
  (fetch_itp URL world now vin).1 = (retry_loop URL world vin [1; 2; 3]%nat []).1.
Proof.
  unfold fetch_itp. rewrite fst_try, fst_bind, snd_bind.
  destruct (retry_loop _ _ _ _ _).2; cbn [io_ret throw fst snd];
    by rewrite ?app_nil_r.
Qed.

(** C1. Every form a run of [fetch_itp] posts to the portal carries a
    CAPTCHA value that is not empty and that, with its non-digits removed,
    is exactly four decimal digits. *)
Theorem submissions_carry_validated_captcha URL world now vin url data :
  In (HttpPost url data) (fetch_itp URL world now vin).1 ->
  exists code,
    posted_captcha data = Some code /\ code <> [] /\
    fullmatch_digits 4 4 (re_sub_nondigits code) = true.
Proof.
  rewrite fetch_itp_log. intros Hin.
  pose proof (retry_loop_log URL world vin [1; 2; 3]%nat []) as Hall.
  rewrite Forall_forall in Hall. apply list_elem_of_In in Hin.
  apply (Hall _ Hin).
Qed.

End Orchestrator.

Lemma submissions_carry_validated_captcha_witness :
  exists code,
    posted_captcha sample_posted_form = Some code /\ code <> [] /\
    @fullmatch_digits sample_runtime 4 4 (@re_sub_nondigits sample_runtime code)
    = true.
Proof.
  apply (@submissions_carry_validated_captcha sample_runtime
           DEFAULT_LOCAL_OCR_API_URL world_third_time_lucky
           (py "2026-11-03 10:00:00") (py "wvw1k73zxmw000001")
           (py "https://prog.rarom.ro/rarpol/rarpol.asp") sample_posted_form).
  vm_compute. do 4 right. left. reflexivity.
Defined.

Section Retry.
Context {R : Runtime}.

Lemma attempt_body_rejected URL env vin n text :
  (attempt_request URL env vin n).2 = Ok text ->
  contains REJECTION_PHRASE (str_lower text) = true ->
  (attempt_body URL env vin n).2 = Raise captcha_validation_failed.
Proof.
  intros Hreq Hrej. unfold attempt_body. rewrite snd_bind, Hreq, Hrej. done.
Qed.

Lemma attempt_body_accepted URL env vin n text :
  (attempt_body URL env vin n).2 = Ok text ->
  (attempt_request URL env vin n).2 = Ok text /\
  contains REJECTION_PHRASE (str_lower text) = false.
Proof.
  unfold attempt_body. rewrite snd_bind.
  destruct (attempt_request URL env vin n).2 as [t|e]; [|discriminate].
  destruct (contains _ _) eqn:E; [discriminate|].
  intros H. apply Ok_inj in H as ->. done.
Qed.

(** One turn of the loop. *)
Lemma retry_loop_cons URL world vin n rest result_text :
  retry_loop URL world vin (n :: rest) result_text =
  let request := attempt_request URL (world n) vin n in
  match (attempt_body URL (world n) vin n).2 with
  | Ok text => (request.1, Ok text)
  | Raise e =>
    match exn_cls e with
    | UpdateFailed =>
      if (n =? 3)%nat then (request.1, Raise (failed_after_3_attempts e))
      else
        let next :=
          retry_loop URL world vin rest (result_text_after request result_text) in
        (request.1 ++ Sleep 2 :: next.1, next.2)
    | _ => (request.1, Raise e)
    end
  end.
Proof.
  cbv zeta. cbn [retry_loop]. apply injective_projections.
  - rewrite fst_try, attempt_body_log.
    destruct (attempt_body _ _ _ _).2 as [t|e]; cbn [fst]; [by rewrite app_nil_r|].
    destruct (exn_cls e); cbn [fst]; rewrite ?app_nil_r; try done.
    destruct (n =? 3)%nat; cbn [fst throw]; [by rewrite app_nil_r|].
    by rewrite fst_bind.
  - rewrite snd_try.
    destruct (attempt_body _ _ _ _).2 as [t|e]; cbn [snd]; [done|].
    destruct (exn_cls e); cbn [snd]; try done.
    destruct (n =? 3)%nat; cbn [snd throw]; [done|].
    by rewrite snd_bind.
Qed.

Lemma fetch_itp_result URL world now vin :
  (fetch_itp URL world now vin).2 =
  match (retry_loop URL world vin [1; 2; 3]%nat []).2 with
  | Ok text => Ok (record_of now vin text)
  | Raise e => Raise (itp_check_failed e)
  end.
Proof.
  unfold fetch_itp. rewrite snd_try, snd_bind.
  by destruct (retry_loop _ _ _ _ _).2.
Qed.

(** How a run of the loop over the three attempts ends. *)
Lemma retry_loop_run URL world vin :
  let loop := retry_loop URL world vin [1; 2; 3]%nat [] in
  let outcome n := (attempt_body URL (world n) vin n).2 in
  exists k, (1 <= k <= 3)%nat
    /\ loop.1 = attempts_log URL world vin (seq 1 k)
    /\ (forall i, (1 <= i < k)%nat ->
          exists e, outcome i = Raise e /\ exn_cls e = UpdateFailed)
    /\ match outcome k with
       | Ok text => loop.2 = Ok text
       | Raise e => loop.2 = Raise (loop_failure e)
                    /\ (k = 3%nat \/ exn_cls e <> UpdateFailed)
       end.
Proof.
  cbv zeta. rewrite retry_loop_cons. cbv zeta.
  destruct (attempt_body URL (world 1%nat) vin 1).2 as [t1|e1] eqn:E1.
  { exists 1%nat. rewrite E1. cbn [fst snd seq attempts_log].
    rewrite app_nil_r. repeat split; try lia; try done. }
  destruct (exn_cls e1) eqn:C1.
  2,3,4: exists 1%nat; rewrite E1; cbn [fst snd seq attempts_log];
    rewrite app_nil_r; unfold loop_failure; rewrite C1;
    repeat split; try lia; try done; try (intros; lia); right; congruence.
  cbn [Nat.eqb]. rewrite retry_loop_cons. cbv zeta.
  assert (H1 : forall i, (1 <= i < 2)%nat ->
    exists e, (attempt_body URL (world i) vin i).2 = Raise e /\ exn_cls e = UpdateFailed).
  { intros i Hi. assert (i = 1%nat) as -> by lia. eauto. }
  destruct (attempt_body URL (world 2%nat) vin 2).2 as [t2|e2] eqn:E2.
  { exists 2%nat. rewrite E2. cbn [fst snd seq attempts_log].
    rewrite app_nil_r. repeat split; try lia; try done. }
  destruct (exn_cls e2) eqn:C2.
  2,3,4: exists 2%nat; rewrite E2; cbn [fst snd seq attempts_log];
    rewrite app_nil_r; unfold loop_failure; rewrite C2;
    repeat split; try lia; try done; right; congruence.
  cbn [Nat.eqb]. rewrite retry_loop_cons. cbv zeta.
  assert (H2 : forall i, (1 <= i < 3)%nat ->
    exists e, (attempt_body URL (world i) vin i).2 = Raise e /\ exn_cls e = UpdateFailed).
  { intros i Hi. assert (i = 1%nat \/ i = 2%nat) as [->| ->] by lia; eauto. }
  exists 3%nat.
  destruct (attempt_body URL (world 3%nat) vin 3).2 as [t3|e3] eqn:E3.
  { cbn [fst snd seq attempts_log].
    rewrite app_nil_r. repeat split; try lia; try done. }
  unfold loop_failure.
  destruct (exn_cls e3) eqn:C3; cbn [Nat.eqb fst snd seq attempts_log];
    rewrite app_nil_r; repeat split; try lia; try done; by left.
Qed.

End Retry.

Section Retry_claim.
Context {R : Runtime}.

(** C2. A run makes at most three attempts, each one after a failure of
    the one before with [UpdateFailed]. A submission answered 200 with the
    portal's rejection phrase fails its attempt like any other failure:
    it is followed by the next attempt, or, on the third attempt, by the
    failure of the run, and the run never succeeds on it. When all three
    attempts fail, the run raises [UpdateFailed] with the third attempt's
    exception as the cause it reports, not the first's. *)
Theorem three_attempts_then_terminal_failure URL world now vin :
  let run := fetch_itp URL world now vin in
  let request n := (attempt_request URL (world n) vin n).2 in
  let outcome n := (attempt_body URL (world n) vin n).2 in
  (exists k, (1 <= k <= 3)%nat
     /\ run.1 = attempts_log URL world vin (seq 1 k)
     /\ (forall i, (1 <= i < k)%nat ->
           exists e, outcome i = Raise e /\ exn_cls e = UpdateFailed)
     /\ match outcome k with
        | Ok text =>
          run.2 = Ok (record_of now vin text)
          /\ contains REJECTION_PHRASE (str_lower text) = false
        | Raise e =>
          run.2 = Raise (itp_check_failed (loop_failure e))
          /\ (k = 3%nat \/ exn_cls e <> UpdateFailed)
        end
     /\ (forall i text, (1 <= i <= k)%nat -> request i = Ok text ->
           contains REJECTION_PHRASE (str_lower text) = true ->
           (i < k)%nat
           \/ (i = 3%nat /\
               run.2 = Raise (itp_check_failed
                                (failed_after_3_attempts captcha_validation_failed)))))
  /\ (forall n text, request n = Ok text ->
        contains REJECTION_PHRASE (str_lower text) = true ->
        outcome n = Raise captcha_validation_failed)
  /\ (forall e1 e2 e3,
        outcome 1%nat = Raise e1 -> exn_cls e1 = UpdateFailed ->
        outcome 2%nat = Raise e2 -> exn_cls e2 = UpdateFailed ->
        outcome 3%nat = Raise e3 ->
        run.1 = attempts_log URL world vin [1; 2; 3]%nat
        /\ run.2 = Raise (itp_check_failed (loop_failure e3))
        /\ exn_cls (itp_check_failed (loop_failure e3)) = UpdateFailed
        /\ exn_cause (itp_check_failed (loop_failure e3)) = Some (loop_failure e3)
        /\ exn_str (itp_check_failed (loop_failure e3))
           = py "ITP check failed: "
               ++ (match exn_cls e3 with
                   | UpdateFailed => py "Failed after 3 attempts: "
                   | _ => []
                   end) ++ exn_str e3).
Proof.
  cbv zeta.
  destruct (retry_loop_run URL world vin) as (k & Hk & Hlog & Hbefore & Hlast).
  rewrite fetch_itp_log, fetch_itp_result.
  split; [|split].
  - exists k. split; [done|]. split; [done|]. split; [done|].
    assert (Hend : match (attempt_body URL (world k) vin k).2 with
      | Ok text =>
        match (retry_loop URL world vin [1; 2; 3]%nat []).2 with
        | Ok t => Ok (record_of now vin t)
        | Raise e => Raise (itp_check_failed e)
        end = Ok (record_of now vin text)
        /\ contains REJECTION_PHRASE (str_lower text) = false
      | Raise e =>
        match (retry_loop URL world vin [1; 2; 3]%nat []).2 with
        | Ok t => Ok (record_of now vin t)
        | Raise e0 => Raise (itp_check_failed e0)
        end = Raise (itp_check_failed (loop_failure e))
        /\ (k = 3%nat \/ exn_cls e <> UpdateFailed)
      end).
    { destruct (attempt_body URL (world k) vin k).2 as [text|e] eqn:Ek.
      - rewrite Hlast. split; [done|].
        by apply attempt_body_accepted in Ek as [_ ?].
      - destruct Hlast as [-> Hwhy]. done. }
    split; [exact Hend|].
    intros i text Hi Hreq Hrej.
    pose proof (attempt_body_rejected _ _ _ _ _ Hreq Hrej) as Hout.
    destruct (decide (i < k)%nat) as [?|Hge]; [by left|].
    assert (i = k) as -> by lia. right.
    rewrite Hout in Hend. destruct Hend as [-> [->|Hc]]; [done|].
    exfalso. by apply Hc.
  - intros n text. apply attempt_body_rejected.
  - intros e1 e2 e3 E1 C1 E2 C2 E3.
    assert (k = 3%nat) as ->.
    { destruct (decide (k = 1%nat)) as [->|]; [|destruct (decide (k = 2%nat)) as [->|]; [|lia]].
      - rewrite E1 in Hlast. destruct Hlast as [_ [?|?]]; [lia|done].
      - rewrite E2 in Hlast. destruct Hlast as [_ [?|?]]; [lia|done]. }
    rewrite E3 in Hlast. destruct Hlast as [-> _].
    split; [exact Hlog|]. split; [done|]. split; [done|]. split; [done|].
    unfold itp_check_failed, loop_failure, failed_after_3_attempts.
    cbn [exn_str]. destruct (exn_cls e3); cbn [exn_str app]; by rewrite ?app_assoc.
Qed.

End Retry_claim.

(** Runs of [fetch_itp]: success on the third attempt after two rejected
    submissions; and three failures of three different kinds, of which the
    run reports the last. *)
Example third_attempt_succeeds :
  let run := @fetch_itp sample_runtime DEFAULT_LOCAL_OCR_API_URL
               world_third_time_lucky (py "2026-11-03 10:00:00")
               (py "wvw1k73zxmw000001") in
  run.2 = Ok {| rec_vin := py "wvw1k73zxmw000001"; rec_status := py "Valid";
                rec_expiration_date := py "2026-03-05";
                rec_last_checked := py "2026-11-03 10:00:00" |}
  /\ length (List.filter (fun ev => match ev with HttpPost _ _ => true | _ => false end)
                         run.1) = 3%nat
  /\ length (List.filter (fun ev => match ev with OcrUpload _ _ => true | _ => false end)
                         run.1) = 3%nat
  /\ length (List.filter (fun ev => match ev with Sleep _ => true | _ => false end)
                         run.1) = 2%nat.
Proof. vm_compute. repeat split; reflexivity. Qed.

Example three_failures_report_the_last :
  let run := @fetch_itp sample_runtime DEFAULT_LOCAL_OCR_API_URL
               world_three_failures (py "2026-11-03 10:00:00")
               (py "wvw1k73zxmw000001") in
  map (fun n => (@attempt_body sample_runtime DEFAULT_LOCAL_OCR_API_URL
                   (world_three_failures n) (py "wvw1k73zxmw000001") n).2)
      [1; 2; 3]%nat
  = [ Raise (Exception UpdateFailed (py "CAPTCHA validation failed") None);
      Raise (Exception UpdateFailed (py "POST request failed: HTTP 500") None);
      Raise (Exception UpdateFailed
               (py "Invalid CAPTCHA output after cleaning: 123") None) ]
  /\ run.2
     = Raise (Exception UpdateFailed
                (py "ITP check failed: Failed after 3 attempts: Invalid CAPTCHA output after cleaning: 123")
                (Some (Exception UpdateFailed
                         (py "Failed after 3 attempts: Invalid CAPTCHA output after cleaning: 123")
                         None)))
  /\ length (List.filter (fun ev => match ev with HttpPost _ _ => true | _ => false end)
                         run.1) = 2%nat.
Proof. vm_compute. repeat split; reflexivity. Qed.

(** * Further properties of the code *)

(** ** The form builder *)

Lemma head_filter_None {A} (p : A -> bool) l :
  head (List.filter p l) = None <-> forall x, In x l -> p x = false.
Proof.
  induction l as [|a l IH]; simpl; [done|].
  destruct (p a) eqn:E; simpl.
  - split; [done|]. intros H. specialize (H a (or_introl eq_refl)). congruence.
  - rewrite IH. split; [intros H x [<-|Hx]; auto|auto].
Qed.

Lemma head_filter_Some {A} (p : A -> bool) l x :
  head (List.filter p l) = Some x -> In x l /\ p x = true.
Proof.
  intros H. apply filter_In. destruct (List.filter p l); [done|].
  injection H as ->. by left.
Qed.

Lemma collect_inputs_snoc (inputs : list node) (inp : node) :
  collect_inputs (inputs ++ [inp]) =
  match tag_get inp (py "name") with
  | Some (c :: n) =>
    <[ c :: n := default [] (tag_get inp (py "value")) ]> (collect_inputs inputs)
  | _ => collect_inputs inputs
  end.
Proof. unfold collect_inputs. by rewrite foldl_app. Qed.

Lemma collect_inputs_lookup (inputs : list node) (k : pystr) :
  is_Some (collect_inputs inputs !! k) <->
  k <> [] /\ exists inp, In inp inputs /\ tag_get inp (py "name") = Some k.
Proof.
  induction inputs as [|inp inputs IH] using rev_ind.
  - unfold collect_inputs. simpl. rewrite lookup_empty. split.
    + by intros [? ?].
    + by intros (_ & ? & [] & _).
  - rewrite collect_inputs_snoc.
    assert (Hin : forall P : node -> Prop,
      (exists x, In x (inputs ++ [inp]) /\ P x) <->
      (exists x, In x inputs /\ P x) \/ P inp).
    { intros P. split.
      - intros (x & Hx & HP). apply in_app_or in Hx as [?|[<-|[]]]; eauto.
      - intros [(x & Hx & HP)|HP]; eexists; split; eauto using in_or_app.
        apply in_or_app. right. by left. }
    rewrite Hin.
    destruct (tag_get inp (py "name")) as [[|c n]|] eqn:En.
    + rewrite IH. split; [intros [? ?]; auto|].
      intros [? [?|E]]; [done|]. by injection E as <-.
    + destruct (decide (c :: n = k)) as [<-|Hne].
      * rewrite lookup_insert_eq. split; [|eauto]. intros _. split; [done|]. by right.
      * rewrite lookup_insert_ne by done. rewrite IH.
        split; [intros [? ?]; auto|]. intros [? [?|E]]; [done|]. congruence.
    + rewrite IH. split; [intros [? ?]; auto|].
      intros [? [?|E]]; [done|]. discriminate.
Qed.

Lemma collect_inputs_app_unnamed (before after : list node) (k : pystr) :
  (forall other, In other after -> tag_get other (py "name") <> Some k) ->
  collect_inputs (before ++ after) !! k = collect_inputs before !! k.
Proof.
  induction after as [|inp after IH] using rev_ind; intros Hno.
  - by rewrite app_nil_r.
  - rewrite app_assoc, collect_inputs_snoc.
    assert (Hrest : forall other, In other after ->
                      tag_get other (py "name") <> Some k).
    { intros other Hin. apply Hno, in_or_app. by left. }
    assert (Hinp : tag_get inp (py "name") <> Some k).
    { apply Hno, in_or_app. right. by left. }
    destruct (tag_get inp (py "name")) as [[|c n]|]; try by apply IH.
    rewrite lookup_insert_ne by congruence. by apply IH.
Qed.

(** X3. The fields collected from the inputs of a form: the names that
    occur are exactly the non-empty [name] attributes of the inputs, and
    each name carries the [value] of the last input that has it, the empty
    string when that input has no [value]. *)
Theorem collect_inputs_last_wins (inputs : list node) :
  (forall k, is_Some (collect_inputs inputs !! k) <->
     k <> [] /\ exists inp, In inp inputs /\ tag_get inp (py "name") = Some k)
  /\ (forall before inp after k,
        inputs = before ++ inp :: after ->
        tag_get inp (py "name") = Some k -> k <> [] ->
        (forall other, In other after -> tag_get other (py "name") <> Some k) ->
        collect_inputs inputs !! k = Some (default [] (tag_get inp (py "value")))).
Proof.
  split; [apply collect_inputs_lookup|].
  intros before inp after k -> Hname Hk Hafter.
  change (before ++ inp :: after) with (before ++ [inp] ++ after).
  rewrite app_assoc, collect_inputs_app_unnamed by done.
  rewrite collect_inputs_snoc, Hname.
  destruct k as [|c n]; [done|]. by rewrite lookup_insert_eq.
Qed.

Section Form_builder_more.
Context {R : Runtime}.

(** X1. Whatever the page gives as the value of [nr_id], and whether or
    not it has such a field, the form that is built carries the upper-cased
    VIN under [nr_id]. *)
Theorem build_form_data_vin (soup : node) (vin code post_url : pystr)
    (form_data : gmap pystr pystr) :
  _build_form_data_from_page soup vin code = Ok (post_url, form_data) ->
  form_data !! F_NR_ID = Some (str_upper vin).
Proof.
  unfold _build_form_data_from_page.
  destruct (locate_form soup) as [form_el|]; [|discriminate].
  intros [= _ <-].
  destruct field_names_distinct as (H1 & H2 & H3 & H4 & H5 & H6).
  set (extracted := collect_inputs _).
  rewrite lookup_fill_submit.
  rewrite bool_decide_eq_false_2 by (intros [? _]; congruence).
  rewrite override_captcha_insert, captcha_field_override_vin.
  assert (Hcf : captcha_field extracted <> F_NR_ID).
  { unfold captcha_field. repeat case_match; congruence. }
  rewrite lookup_insert_ne by done.
  by rewrite override_vin_insert, lookup_insert_eq.
Qed.

Lemma dom_fill_submit (form_data : gmap pystr pystr) :
  dom (fill_submit form_data) = dom form_data.
Proof.
  unfold fill_submit. destruct (form_data !! F_TRIMITE) as [[|c v]|] eqn:E; try done.
  rewrite dom_insert_L. apply (elem_of_dom_2 (D := gset pystr)) in E. set_solver.
Qed.

(** X2. The form that is built has the fields extracted from the page and
    at most two more: [nr_id] and the CAPTCHA field the code is written to.
    No extracted field is dropped. *)
Theorem build_form_data_fields (soup : node) (vin code : pystr) (form_el : node) :
  locate_form soup = Some form_el ->
  let extracted := collect_inputs (find_all form_el (py "input")) in
  exists post_url form_data,
    _build_form_data_from_page soup vin code = Ok (post_url, form_data)
    /\ dom form_data = {[ F_NR_ID; captcha_field extracted ]} ∪ dom extracted
    /\ (size extracted <= size form_data <= size extracted + 2)%nat.
Proof.
  intros Hform extracted. eexists _, _. split.
  { by apply build_form_data_located. }
  assert (Hdom :
    dom (fill_submit (override_captcha code (override_vin vin extracted)))
    = {[ F_NR_ID; captcha_field extracted ]} ∪ dom extracted).
  { rewrite dom_fill_submit, override_captcha_insert, captcha_field_override_vin,
      override_vin_insert, !dom_insert_L. set_solver. }
  split; [exact Hdom|].
  assert (Hfill : forall m : gmap pystr pystr, size (fill_submit m) = size m).
  { intros m. unfold fill_submit.
    destruct (m !! F_TRIMITE) as [[|c v]|] eqn:E; try done.
    by rewrite map_size_insert, E. }
  rewrite Hfill, override_captcha_insert, override_vin_insert, !map_size_insert.
  subst extracted. repeat case_match; unfold id; lia.
Qed.

(** X4. The builder returns exactly when the page has a [form] tag, and
    raises [UpdateFailed] otherwise; when the page has a form named [frm],
    the form it reads is one of that name, also when another form comes
    first. *)
Theorem build_form_data_needs_a_form (soup : node) (vin code : pystr) :
  ((exists f, In f (descendants soup) /\ is_tag (py "form") f = true) ->
     exists post_url form_data,
       _build_form_data_from_page soup vin code = Ok (post_url, form_data))
  /\ ((forall f, In f (descendants soup) -> is_tag (py "form") f = false) ->
        _build_form_data_from_page soup vin code
        = Raise (Exception UpdateFailed
                   (py "Unable to find form element on RAR page") None))
  /\ (forall form_el,
        locate_form soup = Some form_el ->
        In form_el (descendants soup) /\ is_tag (py "form") form_el = true
        /\ ((exists f, In f (descendants soup) /\ is_tag (py "form") f = true
                       /\ has_attr (py "name") (py "frm") f = true) ->
            has_attr (py "name") (py "frm") form_el = true)).
Proof.
  split; [|split].
  - intros (f & Hf & Ht). unfold _build_form_data_from_page.
    destruct (locate_form soup) as [form_el|] eqn:E; [eauto|].
    unfold locate_form in E.
    destruct (find_attr soup _ _ _); [done|].
    unfold find in E. rewrite head_filter_None in E.
    rewrite (E f Hf) in Ht. done.
  - intros Hno. unfold _build_form_data_from_page, locate_form.
    assert (E1 : find_attr soup (py "form") (py "name") (py "frm") = None).
    { unfold find_attr. apply head_filter_None. intros x Hx.
      by rewrite (Hno x Hx). }
    assert (E2 : find soup (py "form") = None).
    { unfold find. by apply head_filter_None. }
    by rewrite E1, E2.
  - intros form_el. unfold locate_form.
    destruct (find_attr soup _ _ _) as [g|] eqn:E1.
    + intros [= <-]. unfold find_attr in E1.
      apply head_filter_Some in E1 as [Hin Hp].
      apply andb_true_iff in Hp as [? ?]. done.
    + intros E2. unfold find in E2. apply head_filter_Some in E2 as [Hin Hp].
      split; [done|]. split; [done|].
      intros (f & Hf & Ht & Hn). unfold find_attr in E1.
      rewrite head_filter_None in E1. specialize (E1 f Hf).
      rewrite Ht, Hn in E1. done.
Qed.

End Form_builder_more.

Lemma build_form_data_vin_witness :
  sample_posted_form !! F_NR_ID = Some (py "WVW1K73ZXMW000001").
Proof.
  apply (@build_form_data_vin sample_runtime sample_landing_soup
           (py "wvw1k73zxmw000001") (py "1234")
           (py "https://prog.rarom.ro/rarpol/rarpol.asp")).
  vm_compute. reflexivity.
Defined.

Lemma build_form_data_fields_witness :
  let extracted := collect_inputs (find_all sample_form (py "input")) in
  exists post_url form_data,
    @_build_form_data_from_page sample_runtime sample_landing_soup
       (py "wvw1k73zxmw000001") (py "1234") = Ok (post_url, form_data)
    /\ dom form_data = {[ F_NR_ID; captcha_field extracted ]} ∪ dom extracted
    /\ (size extracted <= size form_data <= size extracted + 2)%nat.
Proof.
  apply (@build_form_data_fields sample_runtime sample_landing_soup
           (py "wvw1k73zxmw000001") (py "1234") sample_form).
  vm_compute. reflexivity.
Defined.

Example build_form_data_without_form :
  @_build_form_data_from_page sample_runtime formless_soup (py "wvw") (py "1234")
  = Raise (Exception UpdateFailed
             (py "Unable to find form element on RAR page") None).
Proof. vm_compute. reflexivity. Qed.

(** ** Addresses *)

Lemma split1_char_before c s a b :
  split1 [c] s = Some (a, b) -> ~ In c a /\ s = a ++ c :: b.
Proof.
  revert a. induction s as [|x s IH]; intros a; simpl; [done|].
  rewrite andb_true_r. destruct (N.eqb_spec c x) as [->|Hne].
  - intros [= <- <-]. rewrite drop_0. by split; [intros []|].
  - destruct (split1 [c] s) as [[a' b']|]; [|done].
    intros [= <- <-]. destruct (IH a' eq_refl) as [Hin ->].
    split; [|done]. intros [?|?]; [congruence|done].
Qed.

Lemma split1_char_found c s : In c s -> is_Some (split1 [c] s).
Proof.
  induction s as [|x s IH]; [done|]. simpl. rewrite andb_true_r.
  destruct (N.eqb_spec c x) as [->|Hne]; [eauto|].
  intros [?|Hin]; [congruence|]. destruct (IH Hin) as [[a b] ->]. eauto.
Qed.

Lemma determine_post_url_fragment path fragment :
  ~ In CH_HASH path -> startswith HTTP_PREFIX path = false ->
  determine_post_url (path ++ CH_HASH :: fragment) = determine_post_url path.
Proof.
  intros Hh Hp. rewrite (determine_post_url_clean path) by done.
  unfold determine_post_url.
  assert (Hp' : startswith HTTP_PREFIX (path ++ CH_HASH :: fragment) = false).
  { destruct (startswith HTTP_PREFIX (path ++ _)) eqn:E; [|done].
    apply startswith_before_char in E; [congruence|].
    vm_compute. intuition discriminate. }
  rewrite Hp'.
  assert (Hc : contains [CH_HASH] (path ++ CH_HASH :: fragment) = true).
  { apply contains_char_In, in_or_app. right. by left. }
  rewrite Hc, split1_char by done.
  destruct path; [done|]. by rewrite landing_directory.
Qed.

Lemma startswith_prefix p s : startswith p s = true -> exists t, s = p ++ t.
Proof.
  revert s. induction p as [|a p IH]; intros s; [by exists s|].
  destruct s as [|b s]; simpl; [done|].
  intros [Hab Hp]%andb_true_iff. apply N.eqb_eq in Hab as ->.
  destruct (IH s Hp) as [t ->]. by exists t.
Qed.

(** X5. An action that does not start with [http] can only lead to the
    portal: the submission URL then starts with [https://prog.rarom.ro/]
    and carries no fragment, whatever the action is. *)
Theorem relative_action_stays_on_portal (action : pystr) :
  startswith HTTP_PREFIX action = false ->
  startswith (py "https://prog.rarom.ro/") (determine_post_url action) = true
  /\ ~ In CH_HASH (determine_post_url action).
Proof.
  intros Hp.
  assert (Hclean : exists clean, ~ In CH_HASH clean /\
    startswith HTTP_PREFIX clean = false /\
    determine_post_url action = determine_post_url clean).
  { destruct (contains [CH_HASH] action) eqn:Hc.
    - apply contains_char_In in Hc.
      destruct (split1 [CH_HASH] action) as [[a b]|] eqn:Hs.
      + apply split1_char_before in Hs as [Hin ->].
        assert (Ha : startswith HTTP_PREFIX a = false).
        { destruct (startswith HTTP_PREFIX a) eqn:E; [|done].
          apply startswith_prefix in E as [t ->].
          rewrite <- app_assoc, startswith_app in Hp. done. }
        exists a. split; [done|]. split; [done|].
        by apply determine_post_url_fragment.
      + apply split1_char_found in Hc as [? Hc]. congruence.
    - apply contains_char_not_In in Hc. by exists action. }
  destruct Hclean as (clean & Hin & Hpc & ->).
  rewrite determine_post_url_clean by done.
  destruct clean as [|c clean]; [split; [done|vm_compute; intuition discriminate]|].
  destruct (startswith [CH_SLASH] (c :: clean)) eqn:Hs.
  - cbn [startswith] in Hs. rewrite andb_true_r in Hs. apply N.eqb_eq in Hs as <-.
    split; [done|]. intros Hx. apply in_app_or in Hx as [Hx|Hx]; [|done].
    revert Hx. vm_compute. intuition discriminate.
  - split; [done|]. intros Hx.
    apply in_app_or in Hx as [Hx|Hx];
      [revert Hx; vm_compute; intuition discriminate|].
    apply in_app_or in Hx as [Hx|Hx]; [|done].
    revert Hx. vm_compute. intuition discriminate.
Qed.

Lemma lstrip_by_split f s :
  exists a, s = a ++ lstrip_by f s /\ forallb f a = true
            /\ match lstrip_by f s with [] => True | c :: _ => f c = false end.
Proof.
  induction s as [|c s IH]; cbn [lstrip_by].
  - by exists [].
  - destruct (f c) eqn:E.
    + destruct IH as (a & H1 & H2 & H3). exists (c :: a).
      split; [by rewrite H1 at 1|]. split; [|done]. cbn [forallb]. by rewrite E.
    + by exists [].
Qed.

(** X6. The CAPTCHA image is fetched from the [src] itself when that
    starts with [http], and otherwise from below
    [https://prog.rarom.ro/rarpol/], with the leading slashes of the [src]
    removed, so that no doubled slash follows the directory. *)
Theorem captcha_url_below_portal (captcha_src : pystr) :
  (startswith HTTP_PREFIX captcha_src = true ->
     captcha_url_of captcha_src = captcha_src)
  /\ (startswith HTTP_PREFIX captcha_src = false ->
        exists path,
          captcha_url_of captcha_src = py "https://prog.rarom.ro/rarpol/" ++ path
          /\ startswith [CH_SLASH] path = false
          /\ exists slashes, captcha_src = slashes ++ path
                             /\ forallb (N.eqb CH_SLASH) slashes = true).
Proof.
  unfold captcha_url_of. split; intros ->; [done|].
  exists (lstrip_by (N.eqb CH_SLASH) captcha_src). split; [done|].
  destruct (lstrip_by_split (N.eqb CH_SLASH) captcha_src) as (a & H1 & H2 & H3).
  split; [|by exists a].
  destruct (lstrip_by (N.eqb CH_SLASH) captcha_src) as [|c r]; [done|].
  cbn [startswith]. by rewrite H3.
Qed.

Lemma relative_action_stays_on_portal_witness :
  startswith (py "https://prog.rarom.ro/")
             (determine_post_url (py "q.asp?x=1#top")) = true
  /\ ~ In CH_HASH (determine_post_url (py "q.asp?x=1#top")).
Proof.
  apply (relative_action_stays_on_portal (py "q.asp?x=1#top")).
  vm_compute. reflexivity.
Defined.

(** ** The OCR client, once more *)

Section OCR_client_more.
Context {R : Runtime}.

Lemma solve_captcha_upload URL endpoint image :
  (solve_captcha_with_local_api URL endpoint image).1
  = [OcrUpload (ocr_request_url URL) image].
Proof.
  unfold solve_captcha_with_local_api. io_norm.
  destruct (endpoint _ image) as [resp|e]; io_norm.
  2:{ destruct (exn_cls e); io_norm; done. }
  destruct (negb _); io_norm.
  { destruct (ocr_body_text resp) as [t|e]; io_norm; [done|].
    destruct (exn_cls e); io_norm; done. }
  destruct (ocr_body_json resp) as [[text|ty]|e]; io_norm.
  3:{ destruct (exn_cls e); io_norm; done. }
  2:{ done. }
  destruct (strip (default [] text)) as [|c raw]; io_norm; [done|].
  destruct (negb _); io_norm; done.
Qed.

(** X7. Every call of the OCR client sends exactly one upload, whatever
    comes back: to the configured URL followed by [&expected_length=4] when
    that URL already has a [?], and by [?expected_length=4] otherwise. *)
Theorem ocr_client_uploads_once URL endpoint image :
  (solve_captcha_with_local_api URL endpoint image).1
  = [OcrUpload (ocr_request_url URL) image]
  /\ (In CH_QMARK URL ->
        ocr_request_url URL = URL ++ py "&expected_length=4")
  /\ (~ In CH_QMARK URL ->
        ocr_request_url URL = URL ++ py "?expected_length=4")
  /\ In CH_QMARK (ocr_request_url URL).
Proof.
  split; [apply solve_captcha_upload|]. unfold ocr_request_url.
  destruct (contains [CH_QMARK] URL) eqn:E.
  - apply contains_char_In in E. repeat split; try done.
    apply in_or_app. by left.
  - apply contains_char_not_In in E. repeat split; try done.
    apply in_or_app. right. by left.
Qed.

(** X8. When the endpoint answers 200 with a text that holds one to three
    digits, the client does not fail: it returns these digits as they are,
    and the length check is left to the caller. The digit table is one in
    which no whitespace character is a digit. *)
Theorem ocr_short_candidate_passes_through URL endpoint image resp text :
  (forall c, isspace c = true -> re_digit c = false) ->
  endpoint (ocr_request_url URL) image = Ok resp ->
  ocr_status resp = 200%Z ->
  ocr_body_json resp = Ok (JObject (Some text)) ->
  (1 <= length (re_sub_nondigits text) <= 3)%nat ->
  (solve_captcha_with_local_api URL endpoint image).2
  = Ok (re_sub_nondigits text).
Proof.
  intros Hlaw He Hs Hj [Hlo Hhi].
  rewrite (solve_captcha_200 _ _ _ _ _ He Hs Hj). cbv zeta. cbn [from_option id].
  assert (Hd : re_sub_nondigits (strip text) = re_sub_nondigits text)
    by (by apply filter_strip_by).
  destruct (strip text) as [|c r] eqn:Hraw.
  { rewrite <- Hd in Hlo. simpl in Hlo. lia. }
  rewrite Hd.
  assert (Hm : fullmatch_digits 1 6 (re_sub_nondigits text) = true).
  { apply fullmatch_digits_spec. split; [lia|apply forallb_filter]. }
  rewrite Hm.
  assert (Hlt : (4 <=? length (re_sub_nondigits text))%nat = false)
    by (apply Nat.leb_gt; lia).
  by rewrite Hlt.
Qed.

Lemma solve_captcha_returns_digits URL endpoint image s :
  (solve_captcha_with_local_api URL endpoint image).2 = Ok s ->
  s <> [] /\ re_sub_nondigits s = s.
Proof.
  intros Hs.
  destruct (solve_captcha_cases URL endpoint image)
    as [[e He]|(resp & text & raw & _ & _ & _ & _ & _ & Hm & Hout)];
    rewrite Hs in *; [discriminate|].
  apply fullmatch_digits_spec in Hm as [[Hlo Hhi] Hd].
  apply Ok_inj in Hout as ->.
  destruct (4 <=? _)%nat eqn:Hlen.
  - apply Nat.leb_le in Hlen. split.
    + intros E. apply (f_equal (@length N)) in E.
      rewrite length_take in E. cbn [length] in E. lia.
    + apply forallb_filter_id. by apply forallb_take.
  - split.
    + intros E. rewrite E in Hlo. simpl in Hlo. lia.
    + by apply forallb_filter_id.
Qed.

End OCR_client_more.

Lemma ocr_short_candidate_passes_through_witness :
  (@solve_captcha_with_local_api sample_runtime DEFAULT_LOCAL_OCR_API_URL
     (fun _ _ => Ok (ocr_answer (py "1 2x3"))) []).2
  = Ok (py "123").
Proof.
  apply (@ocr_short_candidate_passes_through sample_runtime
           DEFAULT_LOCAL_OCR_API_URL
           (fun _ _ => Ok (ocr_answer (py "1 2x3"))) []
           (ocr_answer (py "1 2x3")) (py "1 2x3")).
  - exact sample_space_not_digit.
  - reflexivity.
  - reflexivity.
  - reflexivity.
  - vm_compute. lia.
Defined.

(** ** One attempt, step by step *)

Section Attempt_more.
Context {R : Runtime}.

Lemma try_except_solve_Ok URL endpoint image h s :
  (forall e k, h e = Some k -> exists e', k = throw e') ->
  (try_except (solve_captcha_with_local_api URL endpoint image) h).2 = Ok s ->
  (solve_captcha_with_local_api URL endpoint image).2 = Ok s.
Proof.
  intros Hh. rewrite snd_try.
  destruct (solve_captcha_with_local_api URL endpoint image).2 as [a|e]; [done|].
  destruct (h e) as [k|] eqn:E; [|done].
  destruct (Hh e k E) as [e' ->]. done.
Qed.

Lemma fst_try_throwing {A} (m : io A) h :
  (forall e k, h e = Some k -> k.1 = []) -> (try_except m h).1 = m.1.
Proof.
  intros Hh. rewrite fst_try. destruct m.2 as [a|e]; [by rewrite app_nil_r|].
  destruct (h e) as [k|] eqn:E; [|by rewrite app_nil_r].
  by rewrite (Hh e k E), app_nil_r.
Qed.

(** What an attempt sends and what it returns, from the answers it gets. *)
Lemma attempt_request_cases URL env vin n :
  let run := attempt_request URL env vin n in
  (run.1 = [HttpGet BASE_URL] /\ exists e, run.2 = Raise e)
  \/ (exists html img src image,
        landing env = Ok (200%Z, Ok html)
        /\ find_attr (BeautifulSoup html) (py "img") (py "id") (py "imgVerf") = Some img
        /\ tag_get img (py "src") = Some src /\ src <> []
        /\ ((run.1 = [HttpGet BASE_URL; HttpGet (captcha_url_of src)]
             /\ exists e, run.2 = Raise e)
            \/ (captcha_image env (captcha_url_of src) = Ok (200%Z, Ok image)
                /\ ((run.1 = [HttpGet BASE_URL; HttpGet (captcha_url_of src);
                              SaveImage vin n image;
                              OcrUpload (ocr_request_url URL) image]
                     /\ exists e, run.2 = Raise e)
                    \/ (exists s post_url data,
                          (solve_captcha_with_local_api URL (ocr_endpoint env) image).2
                          = Ok s
                          /\ length s = 4%nat
                          /\ _build_form_data_from_page (BeautifulSoup html) vin s
                             = Ok (post_url, data)
                          /\ run.1 = [HttpGet BASE_URL; HttpGet (captcha_url_of src);
                                      SaveImage vin n image;
                                      OcrUpload (ocr_request_url URL) image;
                                      HttpPost post_url data]
                          /\ run.2 =
                             match portal env post_url data with
                             | Raise e => Raise e
                             | Ok (status, body) =>
                               if (status =? 200)%Z then body
                               else Raise (Exception UpdateFailed
                                             (py "POST request failed: HTTP "
                                                ++ str_of_Z status) None)
                             end))))).
Proof.
  cbv zeta.
  destruct (attempt_request URL env vin n) as [log res] eqn:Hrun.
  pose proof (f_equal fst Hrun) as Hl. pose proof (f_equal snd Hrun) as Hr.
  clear Hrun. cbn [fst snd] in Hl, Hr |- *. unfold attempt_request in Hl, Hr.
  rewrite fst_bind in Hl. rewrite snd_bind in Hr. cbn [emit fst snd] in Hl, Hr.
  rewrite fst_bind, checked_body_log in Hl. rewrite snd_bind in Hr.
  cbn [app] in Hl. unfold checked_body at 1 in Hl. unfold checked_body at 1 in Hr.
  destruct (landing env) as [[status body]|e] eqn:Hland; cbn [throw fst snd] in Hl, Hr;
    [|subst; left; eauto].
  destruct (status =? 200)%Z eqn:Hst; cbn [negb raise_ throw lift fst snd] in Hl, Hr;
    [|subst; left; eauto].
  apply Z.eqb_eq in Hst as ->.
  destruct body as [html|e]; [|subst; left; eauto].
  rewrite fst_bind in Hl. rewrite snd_bind in Hr.
  destruct (find_attr (BeautifulSoup html) _ _ _) as [img|] eqn:Himg;
    cbn [raise_ throw fst snd] in Hl, Hr; [|subst; left; eauto].
  destruct (tag_get img (py "src")) as [[|c src]|] eqn:Hsrc;
    cbn [raise_ throw io_ret fst snd] in Hl, Hr;
    [subst; left; eauto| |subst; left; eauto].
  right. exists html, img, (c :: src).
  fold (captcha_url_of (c :: src)) in Hl, Hr.
  rewrite fst_bind in Hl. rewrite snd_bind in Hr. cbn [emit fst snd app] in Hl, Hr.
  rewrite fst_bind, checked_body_log in Hl. rewrite snd_bind in Hr.
  cbn [app] in Hl. unfold checked_body at 1 in Hl. unfold checked_body at 1 in Hr.
  destruct (captcha_image env (captcha_url_of (c :: src)))
    as [[status body]|e] eqn:Hcap; cbn [throw fst snd] in Hl, Hr.
  2:{ exists []. subst. repeat split; try done. left. eauto. }
  destruct (status =? 200)%Z eqn:Hst; cbn [negb raise_ throw lift fst snd] in Hl, Hr.
  2:{ exists []. subst. repeat split; try done. left. eauto. }
  apply Z.eqb_eq in Hst as ->.
  destruct body as [image|e].
  2:{ exists []. subst. repeat split; try done. left. eauto. }
  exists image. split; [done|]. split; [done|]. split; [done|]. split; [done|].
  right. split; [done|].
  rewrite fst_bind in Hl. rewrite snd_bind in Hr. cbn [emit fst snd app] in Hl, Hr.
  rewrite fst_bind, fst_try_throwing, solve_captcha_upload in Hl.
  2:{ intros e k. destruct (exn_cls e); intros [= <-]; done. }
  rewrite snd_bind in Hr. cbn [app] in Hl.
  destruct (try_except _ _).2 as [s|e] eqn:Hsolved; [|subst; left; eauto].
  apply try_except_solve_Ok in Hsolved.
  2:{ intros e k. destruct (exn_cls e); intros [= <-]; eauto. }
  destruct (solve_captcha_returns_digits _ _ _ _ Hsolved) as [Hne Hclean].
  destruct s as [|c0 s]; [done|]. rewrite Hclean in Hl, Hr.
  destruct (fullmatch_digits 4 4 (c0 :: s)) eqn:Hm;
    cbn [negb raise_ throw fst snd] in Hl, Hr; [|subst; left; eauto].
  apply fullmatch_digits_spec in Hm as [[Hlo Hhi] _].
  rewrite fst_bind in Hl. rewrite snd_bind in Hr. cbn [lift fst snd app] in Hl, Hr.
  destruct (_build_form_data_from_page _ vin (c0 :: s)) as [[post_url data]|e]
    eqn:Hbuild; [|subst; left; eauto].
  right. exists (c0 :: s), post_url, data.
  rewrite fst_bind, checked_body_log in Hl. rewrite snd_bind in Hr.
  cbn [emit fst snd app] in Hl, Hr.
  split; [done|]. split; [lia|]. split; [done|]. split; [done|].
  subst res. unfold checked_body.
  destruct (portal env post_url data) as [[status body]|e]; [|done].
  by destruct (status =? 200)%Z.
Qed.

(** X9. An attempt works in a fixed order and stops at the first step
    that fails: the landing page, the CAPTCHA image, its saving, the OCR
    upload and the submission. So its log is a non-empty prefix of these
    five events; nothing is posted before the OCR client has been asked,
    and nothing is sent after the submission. *)
Theorem attempt_steps_in_order URL env vin n :
  exists captcha_url image post_url data,
    (attempt_request URL env vin n).1 `prefix_of`
      [ HttpGet BASE_URL; HttpGet captcha_url; SaveImage vin n image;
        OcrUpload (ocr_request_url URL) image; HttpPost post_url data ]
    /\ (attempt_request URL env vin n).1 <> [].
Proof.
  destruct (attempt_request_cases URL env vin n)
    as [[-> _]|(html & img & src & image & _ & _ & _ & _ &
                [[-> _]|(_ & [[-> _]|(s & post_url & data & _ & _ & _ & -> & _)])])].
  - exists [], [], [], ∅. split; [|done]. by eexists.
  - exists (captcha_url_of src), [], [], ∅. split; [|done]. by eexists.
  - exists (captcha_url_of src), image, [], ∅. split; [|done]. by eexists.
  - exists (captcha_url_of src), image, post_url, data. split; [|done]. by exists [].
Qed.

(** X10. A form is posted only with what the OCR client read: when an
    attempt posts a form, the OCR client, asked about the image uploaded in
    that attempt, returned a string of exactly four characters, the form
    carries this very string as its CAPTCHA value, and it carries the
    upper-cased VIN. *)
Theorem posted_code_is_what_ocr_read URL env vin n url data :
  In (HttpPost url data) (attempt_request URL env vin n).1 ->
  exists image s,
    In (OcrUpload (ocr_request_url URL) image) (attempt_request URL env vin n).1
    /\ (solve_captcha_with_local_api URL (ocr_endpoint env) image).2 = Ok s
    /\ length s = 4%nat
    /\ posted_captcha data = Some s
    /\ data !! F_NR_ID = Some (str_upper vin).
Proof.
  destruct (attempt_request_cases URL env vin n)
    as [[-> _]|(html & img & src & image & _ & _ & _ & _ &
                [[-> _]|(_ & [[-> _]|(s & post_url & form & Hs & Hlen & Hb & -> & _)])])];
    intros Hin; cbn [In] in Hin.
  - intuition discriminate.
  - intuition discriminate.
  - intuition discriminate.
  - destruct Hin as [?|[?|[?|[?|[[= <- <-]|[]]]]]]; try discriminate.
    exists image, s. split; [cbn [In]; tauto|]. split; [done|]. split; [done|].
    split.
    + by eapply build_form_data_posted_captcha.
    + unfold _build_form_data_from_page in Hb.
      destruct (locate_form _) as [form_el|]; [|discriminate].
      injection Hb as _ <-.
      destruct field_names_distinct as (H1 & H2 & H3 & H4 & H5 & H6).
      rewrite lookup_fill_submit.
      rewrite bool_decide_eq_false_2 by (intros [? _]; congruence).
      rewrite override_captcha_insert, captcha_field_override_vin.
      rewrite lookup_insert_ne
        by (unfold captcha_field; repeat case_match; congruence).
      by rewrite override_vin_insert, lookup_insert_eq.
Qed.

(** X11. On a page that has the CAPTCHA image and a form, with the image
    downloaded and read as four digits, the attempt sends exactly five
    requests - landing page, image, debug copy, OCR upload, form - and its
    outcome is that of the submission: the body of a 200 answer, an
    [UpdateFailed] for any other status, and the exception of the request
    when it raises. *)
Theorem attempt_on_a_good_page URL env vin n html img src image s form_el :
  landing env = Ok (200%Z, Ok html) ->
  find_attr (BeautifulSoup html) (py "img") (py "id") (py "imgVerf") = Some img ->
  tag_get img (py "src") = Some src -> src <> [] ->
  captcha_image env (captcha_url_of src) = Ok (200%Z, Ok image) ->
  (solve_captcha_with_local_api URL (ocr_endpoint env) image).2 = Ok s ->
  length s = 4%nat ->
  locate_form (BeautifulSoup html) = Some form_el ->
  exists post_url data,
    _build_form_data_from_page (BeautifulSoup html) vin s = Ok (post_url, data)
    /\ (attempt_request URL env vin n).1
       = [ HttpGet BASE_URL; HttpGet (captcha_url_of src); SaveImage vin n image;
           OcrUpload (ocr_request_url URL) image; HttpPost post_url data ]
    /\ (attempt_request URL env vin n).2
       = match portal env post_url data with
         | Raise e => Raise e
         | Ok (status, body) =>
           if (status =? 200)%Z then body
           else Raise (Exception UpdateFailed
                         (py "POST request failed: HTTP " ++ str_of_Z status) None)
         end.
Proof.
  intros Hland Himg Hsrc Hne Hcap Hsolve Hlen Hform.
  rewrite (build_form_data_located _ vin s _ Hform). eexists _, _.
  split; [done|].
  destruct (solve_captcha_returns_digits _ _ _ _ Hsolve) as [Hs Hclean].
  assert (Hm : fullmatch_digits 4 4 s = true).
  { apply fullmatch_digits_spec. split; [lia|].
    rewrite <- Hclean. apply forallb_filter. }
  assert (Htry : forall h : exn -> option (io pystr),
    (try_except (solve_captcha_with_local_api URL (ocr_endpoint env) image) h).2
    = Ok s).
  { intros h. by rewrite snd_try, Hsolve. }
  destruct src as [|c src]; [done|]. destruct s as [|c0 s]; [done|].
  unfold attempt_request. split.
  - rewrite fst_bind, ?snd_bind. cbn [emit fst snd].
    rewrite fst_bind, ?snd_bind, checked_body_log, Hland.
    cbn [checked_body Z.eqb Pos.eqb negb lift snd app].
    rewrite fst_bind, ?snd_bind, Himg, Hsrc. cbn [io_ret fst snd app].
    fold (captcha_url_of (c :: src)).
    rewrite fst_bind, ?snd_bind. cbn [emit fst snd app].
    rewrite fst_bind, ?snd_bind, checked_body_log, Hcap.
    cbn [checked_body Z.eqb Pos.eqb negb lift snd app].
    rewrite fst_bind, ?snd_bind. cbn [emit fst snd app].
    rewrite fst_bind, ?snd_bind, fst_try_throwing, solve_captcha_upload, Htry.
    2:{ intros e k. destruct (exn_cls e); intros [= <-]; done. }
    rewrite Hclean, Hm. cbn [negb app].
    rewrite fst_bind, ?snd_bind, (build_form_data_located _ vin _ _ Hform).
    cbn [lift fst snd app].
    rewrite fst_bind, ?snd_bind, checked_body_log. cbn [emit fst snd app]. done.
  - rewrite snd_bind. cbn [emit fst snd].
    rewrite snd_bind, Hland.
    cbn [checked_body Z.eqb Pos.eqb negb lift snd app].
    rewrite snd_bind, Himg, Hsrc. cbn [io_ret fst snd app].
    fold (captcha_url_of (c :: src)).
    rewrite snd_bind. cbn [emit fst snd app].
    rewrite snd_bind, Hcap.
    cbn [checked_body Z.eqb Pos.eqb negb lift snd app].
    rewrite snd_bind. cbn [emit fst snd app].
    rewrite snd_bind, Htry.
    rewrite Hclean, Hm. cbn [negb app].
    rewrite snd_bind, (build_form_data_located _ vin _ _ Hform).
    cbn [lift fst snd app].
    rewrite snd_bind. cbn [emit fst snd app].
    unfold checked_body.
    destruct (portal env _ _) as [[status body]|e]; [|done].
    by destruct (status =? 200)%Z.
Qed.

End Attempt_more.

Lemma posted_code_is_what_ocr_read_witness :
  exists image s,
    In (OcrUpload (ocr_request_url DEFAULT_LOCAL_OCR_API_URL) image)
       (@attempt_request sample_runtime DEFAULT_LOCAL_OCR_API_URL
          (world_third_time_lucky 1) (py "wvw1k73zxmw000001") 1).1
    /\ (@solve_captcha_with_local_api sample_runtime DEFAULT_LOCAL_OCR_API_URL
          (ocr_endpoint (world_third_time_lucky 1)) image).2 = Ok s
    /\ length s = 4%nat
    /\ posted_captcha sample_posted_form = Some s
    /\ sample_posted_form !! F_NR_ID
       = Some (@str_upper sample_runtime (py "wvw1k73zxmw000001")).
Proof.
  apply (@posted_code_is_what_ocr_read sample_runtime DEFAULT_LOCAL_OCR_API_URL
           (world_third_time_lucky 1) (py "wvw1k73zxmw000001") 1
           (py "https://prog.rarom.ro/rarpol/rarpol.asp") sample_posted_form).
  vm_compute. do 4 right. left. reflexivity.
Defined.

Lemma attempt_on_a_good_page_witness :
  let env := world_third_time_lucky 3 in
  let vin := py "wvw1k73zxmw000001" in
  let image := [137; 80; 78; 71] in
  exists post_url data,
    @_build_form_data_from_page sample_runtime
      (@BeautifulSoup sample_runtime sample_landing_html) vin (py "1234")
    = Ok (post_url, data)
    /\ (@attempt_request sample_runtime DEFAULT_LOCAL_OCR_API_URL env vin 3).1
       = [ HttpGet BASE_URL; HttpGet (captcha_url_of (py "captcha.asp"));
           SaveImage vin 3 image;
           OcrUpload (ocr_request_url DEFAULT_LOCAL_OCR_API_URL) image;
           HttpPost post_url data ]
    /\ (@attempt_request sample_runtime DEFAULT_LOCAL_OCR_API_URL env vin 3).2
       = match portal env post_url data with
         | Raise e => Raise e
         | Ok (status, body) =>
           if (status =? 200)%Z then body
           else Raise (Exception UpdateFailed
                         (py "POST request failed: HTTP " ++ str_of_Z status) None)
         end.
Proof.
  cbv zeta.
  apply (@attempt_on_a_good_page sample_runtime DEFAULT_LOCAL_OCR_API_URL
           (world_third_time_lucky 3) (py "wvw1k73zxmw000001") 3
           sample_landing_html
           (Tag (py "img")
                (<[py "id" := py "imgVerf"]> (<[py "src" := py "captcha.asp"]> ∅)) [])
           (py "captcha.asp") [137; 80; 78; 71] (py "1234") sample_form).
  - reflexivity.
  - vm_compute. reflexivity.
  - vm_compute. reflexivity.
  - discriminate.
  - reflexivity.
  - vm_compute. reflexivity.
  - reflexivity.
  - vm_compute. reflexivity.
Defined.

(** ** A whole run, and the update that repeats it *)

Section Run_more.
Context {R : Runtime}.

Lemma attempt_request_counts URL env vin n :
  let log := (attempt_request URL env vin n).1 in
  (length (List.filter is_post log) <= 1)%nat
  /\ (length (List.filter is_upload log) <= 1)%nat
  /\ length (List.filter is_sleep log) = 0%nat
  /\ (length log <= 5)%nat.
Proof.
  cbv zeta.
  destruct (attempt_request_cases URL env vin n)
    as [[-> _]|(html & img & src & image & _ & _ & _ & _ &
                [[-> _]|(_ & [[-> _]|(s & post_url & data & _ & _ & _ & -> & _)])])];
    cbn; lia.
Qed.

Lemma attempts_log_counts URL world vin (p : event -> bool) (b : nat) attempts :
  p (Sleep 2) = false ->
  (forall n, length (List.filter p (attempt_request URL (world n) vin n).1) <= b)%nat ->
  (length (List.filter p (attempts_log URL world vin attempts))
   <= length attempts * b)%nat.
Proof.
  intros Hp Hb. induction attempts as [|n rest IH]; [done|].
  cbn [attempts_log]. rewrite List.filter_app, length_app.
  specialize (Hb n). destruct rest as [|m rest].
  - cbn [List.filter length]. lia.
  - cbn [List.filter]. rewrite Hp. cbn [length] in IH |- *. lia.
Qed.

Lemma attempts_log_sleeps URL world vin attempts :
  length (List.filter is_sleep (attempts_log URL world vin attempts))
  = (length attempts - 1)%nat.
Proof.
  induction attempts as [|n rest IH]; [done|].
  cbn [attempts_log]. rewrite List.filter_app, length_app.
  destruct (attempt_request_counts URL (world n) vin n) as (_ & _ & -> & _).
  destruct rest as [|m rest]; [done|].
  cbn [List.filter is_sleep length] in IH |- *. lia.
Qed.

Lemma fetch_itp_counts URL world now vin :
  let log := (fetch_itp URL world now vin).1 in
  (length (List.filter is_post log) <= 3)%nat
  /\ (length (List.filter is_upload log) <= 3)%nat
  /\ (length (List.filter is_sleep log) <= 2)%nat.
Proof.
  cbv zeta. rewrite fetch_itp_log.
  destruct (retry_loop_run URL world vin) as (k & Hk & -> & _).
  assert (Hlen : (length (seq 1 k) <= 3)%nat) by (rewrite length_seq; lia).
  pose proof (attempts_log_counts URL world vin is_post 1 (seq 1 k) eq_refl
                (fun n => proj1 (attempt_request_counts URL (world n) vin n))) as Hp.
  pose proof (attempts_log_counts URL world vin is_upload 1 (seq 1 k) eq_refl
                (fun n => proj1 (proj2 (attempt_request_counts URL (world n) vin n)))) as Hu.
  rewrite attempts_log_sleeps. lia.
Qed.

(** X12. A run of [fetch_itp] posts at most three forms to the portal,
    uploads at most three images to the OCR endpoint and sleeps at most
    twice, that is at most four seconds. *)
Theorem fetch_itp_sends_at_most_three URL world now vin :
  let log := (fetch_itp URL world now vin).1 in
  (length (List.filter is_post log) <= 3)%nat
  /\ (length (List.filter is_upload log) <= 3)%nat
  /\ (length (List.filter is_sleep log) <= 2)%nat
  /\ Forall (fun ev => is_sleep ev = true -> ev = Sleep 2) log.
Proof.
  cbv zeta.
  destruct (fetch_itp_counts URL world now vin) as (H1 & H2 & H3).
  split; [done|]. split; [done|]. split; [done|].
  rewrite fetch_itp_log.
  destruct (retry_loop_run URL world vin) as (k & Hk & -> & _).
  assert (Hatt : forall n,
    Forall (fun ev => is_sleep ev = true -> ev = Sleep 2)
           (attempt_request URL (world n) vin n).1).
  { intros n.
    destruct (attempt_request_cases URL (world n) vin n)
      as [[-> _]|(html & img & src & image & _ & _ & _ & _ &
                  [[-> _]|(_ & [[-> _]|(s & post_url & data & _ & _ & _ & -> & _)])])];
      repeat constructor; done. }
  generalize (seq 1 k). intros attempts.
  induction attempts as [|n rest IH]; [constructor|].
  cbn [attempts_log]. apply Forall_app. split; [apply Hatt|].
  destruct rest; [constructor|]. constructor; [done|]. apply IH.
Qed.

Lemma attempt_landing_raises URL env vin n e :
  landing env = Raise e ->
  attempt_request URL env vin n = ([HttpGet BASE_URL], Raise e).
Proof.
  intros Hland. apply injective_projections; unfold attempt_request.
  - rewrite fst_bind. cbn [emit fst snd].
    rewrite fst_bind, checked_body_log. cbn [app].
    by rewrite Hland.
  - rewrite snd_bind. cbn [emit fst snd]. rewrite snd_bind. by rewrite Hland.
Qed.

(** X13. An exception of the landing request that is not an [UpdateFailed]
    (a time-out, a connection error) is not retried inside [fetch_itp]: the
    run consists of that one request, without back-off, and raises
    [UpdateFailed] with the exception as its cause. *)
Theorem transport_exception_is_not_retried URL world now vin e :
  landing (world 1%nat) = Raise e ->
  exn_cls e <> UpdateFailed ->
  fetch_itp URL world now vin = ([HttpGet BASE_URL], Raise (itp_check_failed e)).
Proof.
  intros Hland Hcls.
  pose proof (attempt_landing_raises URL (world 1%nat) vin 1 e Hland) as Hreq.
  assert (Hbody : (attempt_body URL (world 1%nat) vin 1).2 = Raise e).
  { unfold attempt_body. by rewrite snd_bind, Hreq. }
  apply injective_projections.
  - rewrite fetch_itp_log, retry_loop_cons. cbv zeta. rewrite Hbody, Hreq.
    by destruct (exn_cls e).
  - rewrite fetch_itp_result, retry_loop_cons. cbv zeta. rewrite Hbody, Hreq.
    by destruct (exn_cls e).
Qed.

Lemma fetch_itp_raises_UpdateFailed URL world now vin e :
  (fetch_itp URL world now vin).2 = Raise e -> exn_cls e = UpdateFailed.
Proof.
  rewrite fetch_itp_result.
  destruct (retry_loop _ _ _ _ _).2; [done|]. by intros [= <-].
Qed.

Lemma update_loop_cons URL worlds clock vin n rest :
  update_loop URL worlds clock vin (n :: rest) =
  let fetch := fetch_itp URL (worlds n) (clock n) vin in
  match fetch.2 with
  | Ok r => (fetch.1, Ok (Some r))
  | Raise e =>
    if (n =? 2)%nat then (fetch.1, Raise e)
    else
      let next := update_loop URL worlds clock vin rest in
      (fetch.1 ++ Sleep 2 :: next.1, next.2)
  end.
Proof.
  cbv zeta. cbn [update_loop].
  pose proof (fetch_itp_raises_UpdateFailed URL (worlds n) (clock n) vin) as Hcls.
  apply injective_projections.
  - rewrite fst_try, fst_bind, snd_bind.
    destruct (fetch_itp _ _ _ _).2 as [r|e]; cbn [io_ret fst snd];
      [by rewrite !app_nil_r|].
    rewrite (Hcls e eq_refl), app_nil_r.
    destruct (n =? 2)%nat; cbn [fst throw]; [by rewrite app_nil_r|].
    by rewrite fst_bind.
  - rewrite snd_try, snd_bind.
    destruct (fetch_itp _ _ _ _).2 as [r|e]; cbn [io_ret fst snd]; [done|].
    rewrite (Hcls e eq_refl).
    destruct (n =? 2)%nat; cbn [snd throw]; [done|].
    by rewrite snd_bind.
Qed.

Lemma fetches_log_counts URL worlds clock vin attempts :
  (length attempts <= 3)%nat ->
  (length (List.filter is_post (fetches_log URL worlds clock vin attempts))
   <= 3 * length attempts)%nat.
Proof.
  induction attempts as [|n rest IH]; [done|]. intros Hlen.
  cbn [fetches_log length] in *. rewrite List.filter_app, length_app.
  destruct (fetch_itp_counts URL (worlds n) (clock n) vin) as (Hp & _).
  destruct rest as [|m rest]; [cbn; lia|].
  cbn [List.filter is_post]. specialize (IH ltac:(lia)). cbn [length] in *. lia.
Qed.

(** X14. [async_update_data] calls [fetch_itp] up to three times, two
    seconds apart. Every failure of [fetch_itp] is an [UpdateFailed], so
    every failed call is followed by the next one; the first record a call
    returns is the result, and when the third call fails its exception is
    raised as it is. The function never returns [None]. In all, at most
    nine forms are posted. *)
Theorem async_update_data_run URL worlds clock vin :
  let run := async_update_data URL worlds clock vin in
  let fetch n := fetch_itp URL (worlds n) (clock n) vin in
  run.2 <> Ok None
  /\ (length (List.filter is_post run.1) <= 9)%nat
  /\ exists k, (k < 3)%nat
       /\ run.1 = fetches_log URL worlds clock vin (seq 0 (S k))
       /\ (forall i, (i < k)%nat -> exists e, (fetch i).2 = Raise e)
       /\ match (fetch k).2 with
          | Ok r => run.2 = Ok (Some r)
          | Raise e => k = 2%nat /\ run.2 = Raise e /\ exn_cls e = UpdateFailed
          end.
Proof.
  cbv zeta.
  assert (Hmain : exists k, (k < 3)%nat
    /\ (async_update_data URL worlds clock vin).1
       = fetches_log URL worlds clock vin (seq 0 (S k))
    /\ (forall i, (i < k)%nat ->
          exists e, (fetch_itp URL (worlds i) (clock i) vin).2 = Raise e)
    /\ match (fetch_itp URL (worlds k) (clock k) vin).2 with
       | Ok r => (async_update_data URL worlds clock vin).2 = Ok (Some r)
       | Raise e => k = 2%nat
                    /\ (async_update_data URL worlds clock vin).2 = Raise e
                    /\ exn_cls e = UpdateFailed
       end).
  { unfold async_update_data. rewrite update_loop_cons. cbv zeta.
    destruct (fetch_itp URL (worlds 0%nat) (clock 0%nat) vin).2 as [r0|e0] eqn:E0.
    { exists 0%nat. rewrite E0. cbn [fst snd seq fetches_log]. rewrite app_nil_r.
      repeat split; try lia; try done. }
    cbn [Nat.eqb]. rewrite update_loop_cons. cbv zeta.
    destruct (fetch_itp URL (worlds 1%nat) (clock 1%nat) vin).2 as [r1|e1] eqn:E1.
    { exists 1%nat. rewrite E1. cbn [fst snd seq fetches_log]. rewrite app_nil_r.
      repeat split; try lia; try done.
      intros i Hi. assert (i = 0%nat) as -> by lia. eauto. }
    cbn [Nat.eqb]. rewrite update_loop_cons. cbv zeta.
    exists 2%nat.
    assert (Hprev : forall i, (i < 2)%nat ->
      exists e, (fetch_itp URL (worlds i) (clock i) vin).2 = Raise e).
    { intros i Hi. assert (i = 0%nat \/ i = 1%nat) as [->| ->] by lia; eauto. }
    destruct (fetch_itp URL (worlds 2%nat) (clock 2%nat) vin).2 as [r2|e2] eqn:E2;
      cbn [Nat.eqb fst snd seq fetches_log]; rewrite app_nil_r;
      repeat split; try lia; try done.
    by apply fetch_itp_raises_UpdateFailed in E2. }
  destruct Hmain as (k & Hk & Hlog & Hprev & Hlast).
  split; [|split].
  - destruct (fetch_itp URL (worlds k) (clock k) vin).2.
    + by rewrite Hlast.
    + destruct Hlast as (_ & -> & _). done.
  - rewrite Hlog. etrans; [apply fetches_log_counts|];
      rewrite length_seq; lia.
  - exists k. done.
Qed.

End Run_more.

Lemma transport_exception_is_not_retried_witness :
  @fetch_itp sample_runtime DEFAULT_LOCAL_OCR_API_URL world_landing_times_out
     (py "2026-11-03 10:00:00") (py "wvw1k73zxmw000001")
  = ([HttpGet BASE_URL],
     Raise (itp_check_failed (Exception TimeoutError [] None))).
Proof.
  apply (@transport_exception_is_not_retried sample_runtime).
  - reflexivity.
  - discriminate.
Defined.

(** ** The OCR address from the configuration *)

Lemma strip_nil : strip [] = [].
Proof. reflexivity. Qed.


Lemma lstrip_by_head f t :
  match t with [] => True | c :: _ => f c = false end -> lstrip_by f t = t.
Proof. destruct t as [|c t]; [done|]. intros Hc. cbn [lstrip_by]. by rewrite Hc. Qed.

Lemma strip_by_idem f s : strip_by f (strip_by f s) = strip_by f s.
Proof.
  unfold strip_by, rstrip_by.
  destruct (lstrip_by_split f s) as (a & _ & _ & Hhead).
  set (l := lstrip_by f s) in *.
  destruct (lstrip_by_split f (rev l)) as (p & Hp & _ & Hlast).
  set (r := lstrip_by f (rev l)) in *.
  assert (Hl : l = rev r ++ rev p).
  { by rewrite <- rev_app_distr, <- Hp, rev_involutive. }
  assert (Hr : lstrip_by f (rev r) = rev r).
  { apply lstrip_by_head. destruct (rev r) as [|c t]; [done|].
    by rewrite Hl in Hhead. }
  rewrite Hr, rev_involutive. by rewrite (lstrip_by_head f r Hlast).
Qed.

(** X15. The address the OCR client is configured with always starts with
    [http://] or [https://]. The value of the options, without its
    surrounding whitespace, is used when it is not blank, whatever the
    entry's data holds; else the value of the entry's data, without its
    surrounding whitespace, when that is not blank; else the default of
    [const.py]. The value that is used is taken as it is when it starts
    with [http://] or [https://], and is otherwise read as a host on port
    8000: [http://<value>:8000/ocr/file?lang=eng]. *)
Theorem configured_ocr_url_rules (options_ip data_ip : option pystr) :
  let from_options := strip (default [] options_ip) in
  let from_data := strip (default [] data_ip) in
  let url := configured_ocr_url options_ip data_ip in
  (startswith (py "http://") url = true \/ startswith (py "https://") url = true)
  /\ (from_options <> [] ->
        url = configured_ocr_url (Some from_options) None
        /\ forall other, configured_ocr_url options_ip other = url)
  /\ (from_options = [] ->
        url = configured_ocr_url None data_ip
        /\ url = configured_ocr_url None (Some from_data))
  /\ (from_options = [] -> from_data = [] -> url = DEFAULT_LOCAL_OCR_API_URL)
  /\ (forall ip,
        from_options <> [] /\ ip = from_options
        \/ from_options = [] /\ from_data <> [] /\ ip = from_data ->
        (startswith (py "http://") ip = true
         \/ startswith (py "https://") ip = true -> url = ip)
        /\ (startswith (py "http://") ip = false ->
            startswith (py "https://") ip = false ->
            url = py "http://" ++ ip ++ py ":8000/ocr/file?lang=eng")).
Proof.
  cbv zeta. unfold configured_ocr_url. split; [|split; [|split; [|split]]].
  - destruct (str_or _ _) as [|c ip] eqn:E; [by left|].
    destruct (startswith (py "http://") (c :: ip)) eqn:E1; cbn [orb]; [by left|].
    destruct (startswith (py "https://") (c :: ip)) eqn:E2; [by right|].
    left. apply startswith_app.
  - intros Hne.
    assert (Hidem : strip (strip (default [] options_ip)) = strip (default [] options_ip))
      by apply strip_by_idem.
    cbn [from_option id]. rewrite Hidem, strip_nil.
    destruct (strip (default [] options_ip)) as [|c ip] eqn:E; [done|].
    cbn [str_or]. split; [done|]. intros other. done.
  - intros ->. cbn [str_or from_option id]. rewrite strip_nil. cbn [str_or].
    split; [done|].
    assert (Hidem : strip (strip (default [] data_ip)) = strip (default [] data_ip))
      by apply strip_by_idem.
    by rewrite Hidem.
  - intros -> ->. done.
  - intros ip Hip.
    assert (Hsel : str_or (strip (default [] options_ip))
                          (strip (default [] data_ip)) = ip /\ ip <> []).
    { destruct Hip as [[Hne ->]|(-> & Hne & ->)]; [|done].
      destruct (strip (default [] options_ip)); done. }
    destruct Hsel as [-> Hne].
    destruct ip as [|c ip]; [done|]. split.
    + intros [->| ->]; [done|]. by rewrite orb_true_r.
    + by intros -> ->.
Qed.



(** ** The debug copy of the image *)

Lemma string_of_uint_digits (u : Decimal.uint) :
  forallb is_ascii_digit
    (map N_of_ascii (list_ascii_of_string (NilEmpty.string_of_uint u))) = true.
Proof. induction u; simpl; try done. Qed.

Lemma str_of_nat_digits (n : nat) :
  forallb is_ascii_digit (str_of_Z (Z.of_nat n)) = true.
Proof.
  unfold str_of_Z. destruct (Z.of_nat n) as [|p|p] eqn:E; [done| |lia].
  cbn [Z.to_int NilZero.string_of_int]. unfold NilZero.string_of_uint.
  pose proof (string_of_uint_digits (Pos.to_uint p)) as H.
  destruct (Pos.to_uint p); first [exact H | done].
Qed.

Lemma safe_vin_chars vin :
  forallb (fun c => is_ascii_alnum c || (c =? CH_UNDERSCORE)) (safe_vin vin) = true.
Proof.
  induction vin as [|c vin IH]; [done|]. cbn [safe_vin map forallb].
  fold (safe_vin vin). rewrite IH, andb_true_r.
  destruct (is_ascii_alnum c) eqn:E; [by rewrite E|done].
Qed.

(** X17. The debug copy of a CAPTCHA image always lands in the directory
    [/config/www/rar_itp_captchas]: whatever characters the VIN holds, the
    file name has no path separator, because every character of the VIN
    other than an ASCII letter or digit is replaced by an underscore, one
    for one. *)
Theorem captcha_file_stays_in_directory (vin : pystr) (attempt : nat) (ts : pystr) :
  ~ In CH_SLASH ts ->
  captcha_file_path vin attempt ts
  = py "/config/www/rar_itp_captchas/" ++ captcha_file_name vin attempt ts
  /\ ~ In CH_SLASH (captcha_file_name vin attempt ts)
  /\ length (safe_vin vin) = length vin
  /\ forallb (fun c => is_ascii_alnum c || (c =? CH_UNDERSCORE)) (safe_vin vin) = true
  /\ safe_vin (safe_vin vin) = safe_vin vin.
Proof.
  intros Hts.
  assert (Hname : ~ In CH_SLASH (captcha_file_name vin attempt ts)).
  { unfold captcha_file_name. rewrite !in_app_iff.
    intros [H|[H|[H|[H|[H|[H|H]]]]]]; try done;
      try (revert H; vm_compute; intuition discriminate).
    - pose proof (safe_vin_chars vin) as Hc. rewrite forallb_forall in Hc.
      specialize (Hc _ H). done.
    - pose proof (str_of_nat_digits attempt) as Hc. rewrite forallb_forall in Hc.
      specialize (Hc _ H). done. }
  split; [|split; [done|split; [|split]]].
  - unfold captcha_file_path, os_path_join.
    assert (Hs : startswith [CH_SLASH] (captcha_file_name vin attempt ts) = false).
    { done. }
    rewrite Hs. done.
  - unfold safe_vin. apply length_map.
  - apply safe_vin_chars.
  - unfold safe_vin. rewrite map_map. apply map_ext. intros c.
    destruct (is_ascii_alnum c) eqn:E; [by rewrite E|done].
Qed.

(** ** The shape of a parsed date *)

Lemma split_char_parts c s :
  Forall (fun part => ~ In c part) (split_char c s).
Proof.
  induction s as [|x s IH]; cbn [split_char].
  - constructor; [by intros []|constructor].
  - destruct (N.eqb_spec x c) as [->|Hne].
    + constructor; [by intros []|done].
    + destruct (split_char c s) as [|p ps].
      { constructor; [|constructor]. intros [?|[]]. congruence. }
      inversion IH as [|? ? Hp Hps]; subst. constructor; [|done].
      intros [?|?]; [congruence|done].
Qed.

Lemma zfill_length w s : (w <= length (zfill w s))%nat.
Proof.
  unfold zfill. destruct s as [|c r]; [rewrite repeat_length; simpl; lia|].
  destruct ((c =? CH_PLUS) || (c =? CH_DASH));
    cbn [length]; rewrite length_app, repeat_length; cbn [length]; lia.
Qed.

Lemma month_code_in_table (month : pystr) :
  In (default (py "01") (MONTH_MAP !! month)) MONTH_CODES.
Proof.
  destruct (MONTH_MAP !! month) as [v|] eqn:E; [|by left].
  apply elem_of_list_to_map_2 in E. cbn [from_option id].
  repeat (apply elem_of_cons in E as [[= _ ->]|E];
          [vm_compute; tauto|]).
  by apply elem_of_nil in E.
Qed.

(** X18. Whatever follows the marker, a date the new-format parser
    produces is year, dash, one of the twelve codes "01" to "12", dash, and
    a day part of at least two characters; neither the year nor the day
    part it was padded from holds a dash. *)
Theorem new_format_date_shape (lower d : pystr) :
  new_format_date lower = Ok d ->
  exists year code day,
    d = year ++ [CH_DASH] ++ code ++ [CH_DASH] ++ zfill 2 day
    /\ In code MONTH_CODES /\ length code = 2%nat
    /\ (2 <= length (zfill 2 day))%nat
    /\ ~ In CH_DASH year /\ ~ In CH_DASH day.
Proof.
  unfold new_format_date.
  destruct (split1 VALID_UNTIL_MARKER lower) as [[pre fragment]|]; [|discriminate].
  destruct (split_ws fragment) as [|first others]; [discriminate|].
  pose proof (split_char_parts CH_DASH (strip_by (N.eqb CH_DOT) (strip first))) as Hparts.
  destruct (split_char CH_DASH _) as [|day [|month [|year [|? ?]]]]; try discriminate.
  intros [= <-]. exists year, (default (py "01") (MONTH_MAP !! month)), day.
  inversion Hparts as [|? ? Hd H1]; subst. inversion H1 as [|? ? Hm H2]; subst.
  inversion H2 as [|? ? Hy H3]; subst.
  pose proof (month_code_in_table month) as Hcode.
  split; [done|]. split; [done|]. split.
  { revert Hcode. generalize (default (py "01") (MONTH_MAP !! month)).
    intros code Hc. cbn [In MONTH_CODES] in Hc.
    repeat (destruct Hc as [<-|Hc]; [done|]). done. }
  split; [apply zfill_length|]. done.
Qed.

(** ** The binarisation of the local OCR *)

(** X19. The threshold of the binarisation stays between 100 and 170
    whatever the mean brightness, and is the (integer part of the) mean
    when that lies in between. So every pixel of value at most 100 becomes
    black and every pixel above 170 becomes white, in any image; a pixel
    becomes nothing but black (0) or white (255). *)
Theorem clean_threshold_bounds (int_mean p : Z) :
  (100 <= clean_threshold int_mean <= 170)%Z
  /\ ((100 <= int_mean <= 170)%Z -> clean_threshold int_mean = int_mean)
  /\ ((p <= 100)%Z -> clean_point (clean_threshold int_mean) p = 0%Z)
  /\ ((170 < p)%Z -> clean_point (clean_threshold int_mean) p = 255%Z)
  /\ (clean_point (clean_threshold int_mean) p = 0%Z
      \/ clean_point (clean_threshold int_mean) p = 255%Z).
Proof.
  unfold clean_threshold, clean_point.
  repeat split; try lia;
    try (intros; destruct (Z.gtb_spec p (Z.max 100 (Z.min 170 int_mean))); lia).
Qed.

Lemma captcha_file_stays_in_directory_witness :
  captcha_file_path (py "../../etc/passwd") 2 (py "20261103_101500")
  = py "/config/www/rar_itp_captchas/"
       ++ captcha_file_name (py "../../etc/passwd") 2 (py "20261103_101500")
  /\ ~ In CH_SLASH (captcha_file_name (py "../../etc/passwd") 2 (py "20261103_101500"))
  /\ length (safe_vin (py "../../etc/passwd")) = length (py "../../etc/passwd")
  /\ forallb (fun c => is_ascii_alnum c || (c =? CH_UNDERSCORE))
             (safe_vin (py "../../etc/passwd")) = true
  /\ safe_vin (safe_vin (py "../../etc/passwd")) = safe_vin (py "../../etc/passwd").
Proof.
  apply (captcha_file_stays_in_directory (py "../../etc/passwd") 2
           (py "20261103_101500")).
  vm_compute. intuition discriminate.
Defined.

Example captcha_file_name_example :
  captcha_file_path (py "../../etc/passwd") 2 (py "20261103_101500")
  = py "/config/www/rar_itp_captchas/captcha_______etc_passwd_attempt2_20261103_101500.png".
Proof. vm_compute. reflexivity. Qed.

Lemma new_format_date_shape_witness :
  exists year code day,
    py "2027-01-07" = year ++ [CH_DASH] ++ code ++ [CH_DASH] ++ zfill 2 day
    /\ In code MONTH_CODES /\ length code = 2%nat
    /\ (2 <= length (zfill 2 day))%nat
    /\ ~ In CH_DASH year /\ ~ In CH_DASH day.
Proof.
  apply (new_format_date_shape (py "itp valabilă până la 7-sep-2027.")).
  vm_compute. reflexivity.
Defined.

(** ** The registry of coordinators and the [check_now] service *)

Lemma singleton_entry_nonempty (c : nat) :
  bool_decide (({[K_COORDINATOR := c]} : gmap pystr nat) = ∅) = false.
Proof. apply bool_decide_eq_false_2. apply map_non_empty_singleton. Qed.

Lemma handle_check_now_vin (h : hass_state) (vin : pystr) (entry_vin : option pystr) :
  vin <> [] ->
  handle_check_now h (Some vin) entry_vin =
  match default ∅ (hass_data h) !! vin with
  | Some entry_data =>
    if bool_decide (entry_data = ∅) then None else entry_data !! K_COORDINATOR
  | None => None
  end.
Proof. intros Hne. unfold handle_check_now. by destruct vin. Qed.

(** X20. Once the sensor platform has stored the coordinator of a VIN, a
    [check_now] call for that VIN requests the refresh of this coordinator,
    and calls for other VINs are answered as before. The VIN of the call
    has priority over that of the entry the service was registered with,
    which is used when the call gives none; a call that resolves to no VIN,
    or to a VIN nothing is stored for, requests nothing. *)
Theorem check_now_finds_the_coordinator (h : hass_state) (vin : pystr)
    (coordinator : nat) :
  vin <> [] ->
  let h' := store_coordinator vin coordinator h in
  (forall entry_vin, handle_check_now h' (Some vin) entry_vin = Some coordinator)
  /\ handle_check_now h' None (Some vin) = Some coordinator
  /\ handle_check_now h' (Some []) (Some vin) = Some coordinator
  /\ (forall other entry_vin, other <> [] -> other <> vin ->
        handle_check_now h' (Some other) entry_vin
        = handle_check_now h (Some other) entry_vin)
  /\ (forall g, handle_check_now g None None = None)
  /\ (forall g other entry_vin, other <> [] ->
        default ∅ (hass_data g) !! other = None ->
        handle_check_now g (Some other) entry_vin = None).
Proof.
  intros Hne h'.
  assert (Hfound : forall entry_vin,
    handle_check_now h' (Some vin) entry_vin = Some coordinator).
  { intros entry_vin. rewrite handle_check_now_vin by done.
    cbn [h' store_coordinator hass_data from_option id].
    rewrite lookup_insert_eq, singleton_entry_nonempty.
    apply lookup_singleton_eq. }
  split; [exact Hfound|]. split; [|split; [|split; [|split]]].
  - specialize (Hfound None). unfold handle_check_now in *. by destruct vin.
  - specialize (Hfound None). unfold handle_check_now in *. by destruct vin.
  - intros other entry_vin Ho Hother. rewrite !handle_check_now_vin by done.
    cbn [h' store_coordinator hass_data from_option id].
    by rewrite lookup_insert_ne.
  - intros g. done.
  - intros g other entry_vin Ho Hnone. rewrite handle_check_now_vin by done.
    by rewrite Hnone.
Qed.

(** X21. Unloading an entry whose platforms unloaded removes the VIN of
    the entry and nothing else: afterwards a [check_now] call for that VIN
    requests nothing, and calls for the other VINs are answered as before.
    The service is removed, together with the domain data, exactly when no
    VIN is left. When the platforms did not unload, the answer is [False]
    and nothing changes. *)
Theorem unload_removes_one_entry (h : hass_state) (vin : pystr)
    (domain_data : gmap pystr (gmap pystr nat)) :
  vin <> [] -> hass_data h = Some domain_data -> domain_data <> ∅ ->
  let after := async_unload_entry true (Some vin) h in
  after.2 = true
  /\ (forall entry_vin, handle_check_now after.1 (Some vin) entry_vin = None)
  /\ (forall other entry_vin, other <> [] -> other <> vin ->
        handle_check_now after.1 (Some other) entry_vin
        = handle_check_now h (Some other) entry_vin)
  /\ (delete vin domain_data = ∅ ->
        after.1 = {| hass_data := None; check_now_service := None |})
  /\ (delete vin domain_data <> ∅ ->
        check_now_service after.1 = check_now_service h
        /\ hass_data after.1 = Some (delete vin domain_data))
  /\ async_unload_entry false (Some vin) h = (h, false).
Proof.
  intros Hne Hdata Hd. cbv zeta. unfold async_unload_entry. cbn [negb].
  rewrite Hdata, bool_decide_eq_false_2 by done.
  destruct vin as [|c s]; [done|].
  case_bool_decide as Hempty; cbn [fst snd].
  - split; [done|]. split.
    { intros entry_vin. rewrite handle_check_now_vin by done. done. }
    split.
    { intros other entry_vin Ho Hother. rewrite !handle_check_now_vin by done.
      rewrite Hdata. cbn [hass_data from_option id]. rewrite lookup_empty.
      assert (Hl : domain_data !! other = None).
      { rewrite <- (lookup_delete_ne domain_data (c :: s) other) by done.
        by rewrite Hempty. }
      by rewrite Hl. }
    split; [done|]. split; [done|]. done.
  - split; [done|]. split.
    { intros entry_vin. rewrite handle_check_now_vin by done.
      cbn [hass_data from_option id]. by rewrite lookup_delete_eq. }
    split.
    { intros other entry_vin Ho Hother. rewrite !handle_check_now_vin by done.
      rewrite Hdata. cbn [hass_data from_option id].
      by rewrite lookup_delete_ne. }
    split; [done|]. split; [done|]. done.
Qed.

(** X22. Setting an entry up, with the sensor platform storing its
    coordinator, and unloading it again leaves a settled registry as it
    was, provided the VIN was not registered before; both steps keep the
    registry settled, so the service is registered as long as a VIN is. *)
Theorem setup_then_unload_restores (h : hass_state) (vin : pystr)
    (coordinator : nat) :
  vin <> [] -> settled h -> default ∅ (hass_data h) !! vin = None ->
  let up := (init_async_setup_entry (store_coordinator vin coordinator)
                                    (Some vin) h).1 in
  settled up
  /\ handle_check_now up (Some vin) None = Some coordinator
  /\ (check_now_service h = None -> check_now_service up = Some (Some vin))
  /\ (is_Some (check_now_service h) -> check_now_service up = check_now_service h)
  /\ async_unload_entry true (Some vin) up = (h, true)
  /\ (forall other, settled (async_unload_entry true other up).1).
Proof.
  intros Hne Hset Hfresh. cbv zeta.
  unfold init_async_setup_entry, store_coordinator.
  cbn [fst hass_data check_now_service from_option id].
  set (d := default ∅ (hass_data h)) in *.
  set (d' := <[vin := {[K_COORDINATOR := coordinator]}]> d).
  assert (Hd' : d' <> ∅) by apply insert_non_empty.
  assert (Hdel : delete vin d' = d) by (by apply delete_insert_id).
  assert (Hup : forall svc, hass_data
      match svc with
      | Some _ => {| hass_data := Some d'; check_now_service := svc |}
      | None => {| hass_data := Some d'; check_now_service := Some (Some vin) |}
      end = Some d') by (by intros [?|]).
  split; [|split; [|split; [|split; [|split]]]].
  - unfold settled. destruct (check_now_service h); cbn; by eauto.
  - rewrite handle_check_now_vin by done. rewrite Hup. cbn [from_option id].
    unfold d'. rewrite lookup_insert_eq, singleton_entry_nonempty.
    apply lookup_singleton_eq.
  - by intros ->.
  - by intros [svc ->].
  - unfold async_unload_entry. cbn [negb]. rewrite Hup.
    rewrite bool_decide_eq_false_2 by done.
    destruct vin as [|c s]; [done|]. rewrite Hdel.
    unfold settled in Hset. destruct h as [[dd|] svc]; cbn in *.
    + destruct Hset as [Hdd [sv ->]]. subst d.
      rewrite bool_decide_eq_false_2 by done. done.
    + subst svc d. rewrite bool_decide_eq_true_2 by done. done.
  - intros other. unfold async_unload_entry. cbn [negb]. rewrite Hup.
    rewrite bool_decide_eq_false_2 by done.
    assert (Hsvc : is_Some (check_now_service
      match check_now_service h with
      | Some _ => {| hass_data := Some d'; check_now_service := check_now_service h |}
      | None => {| hass_data := Some d'; check_now_service := Some (Some vin) |}
      end)) by (destruct (check_now_service h); cbn; eauto).
    destruct other as [[|c s]|]; repeat case_bool_decide; unfold settled; cbn;
      try done.
Qed.

Lemma check_now_finds_the_coordinator_witness :
  handle_check_now
    (store_coordinator (py "WVW1K73ZXMW000001") 7
       {| hass_data := None; check_now_service := None |})
    (Some (py "WVW1K73ZXMW000001")) None
  = Some 7%nat.
Proof.
  apply (check_now_finds_the_coordinator
           {| hass_data := None; check_now_service := None |}
           (py "WVW1K73ZXMW000001") 7).
  discriminate.
Defined.

Lemma unload_removes_one_entry_witness :
  let h := store_coordinator (py "VIN2") 2
             (store_coordinator (py "VIN1") 1
                {| hass_data := None; check_now_service := Some (Some (py "VIN1")) |}) in
  handle_check_now (async_unload_entry true (Some (py "VIN1")) h).1
                   (Some (py "VIN2")) None
  = handle_check_now h (Some (py "VIN2")) None.
Proof.
  cbv zeta.
  refine (proj1 (proj2 (proj2
    (unload_removes_one_entry
       (store_coordinator (py "VIN2") 2
          (store_coordinator (py "VIN1") 1
             {| hass_data := None; check_now_service := Some (Some (py "VIN1")) |}))
       (py "VIN1")
       (<[py "VIN2" := {[K_COORDINATOR := 2%nat]}]>
          (<[py "VIN1" := {[K_COORDINATOR := 1%nat]}]> ∅))
       _ _ _))) (py "VIN2") None _ _).
  - discriminate.
  - reflexivity.
  - apply insert_non_empty.
  - discriminate.
  - discriminate.
Defined.

Lemma setup_then_unload_restores_witness :
  async_unload_entry true (Some (py "VIN1"))
    (init_async_setup_entry (store_coordinator (py "VIN1") 1) (Some (py "VIN1"))
       {| hass_data := None; check_now_service := None |}).1
  = ({| hass_data := None; check_now_service := None |}, true).
Proof.
  refine (proj1 (proj2 (proj2 (proj2 (proj2
    (setup_then_unload_restores
       {| hass_data := None; check_now_service := None |} (py "VIN1") 1 _ _ _)))))).
  - discriminate.
  - reflexivity.
  - reflexivity.
Defined.

(** ** Days left *)

Section Days_left.
Context {R : Runtime}.

(** X23. For a result page that carries the no-record marker, the number
    of days left computed from the fetched record is [None], whatever the
    date parser and the day are: the date of such a record is never handed
    to the date parser. The same holds for any record whose date stayed
    "Unknown". *)
Theorem no_record_gives_no_days_left (strptime_ymd : pystr -> option Z)
    (today : Z) (now vin result_text : pystr) :
  contains NO_RECORD_MARKER (str_lower (content_text result_text)) = true ->
  rec_status (record_of now vin result_text) = py "Not Found"
  /\ calculate_days_until strptime_ymd today
       (rec_expiration_date (record_of now vin result_text)) = None
  /\ (forall r, rec_expiration_date r = py "Unknown" ->
        calculate_days_until strptime_ymd today (rec_expiration_date r) = None).
Proof.
  intros Hno. unfold record_of, parse_results. rewrite Hno. cbn [negb].
  cbn [rec_status rec_expiration_date]. split; [done|]. split; [done|].
  by intros r ->.
Qed.

End Days_left.

Lemma no_record_gives_no_days_left_witness :
  @rec_status (@record_of sample_runtime (py "2026-11-03 10:00:00") (py "wvw")
                 (py "Nu a fost găsită nicio înregistrare")) = py "Not Found"
  /\ calculate_days_until (fun _ => Some 739000%Z) 739000%Z
       (rec_expiration_date
          (@record_of sample_runtime (py "2026-11-03 10:00:00") (py "wvw")
             (py "Nu a fost găsită nicio înregistrare"))) = None
  /\ (forall r, rec_expiration_date r = py "Unknown" ->
        calculate_days_until (fun _ => Some 739000%Z) 739000%Z
          (rec_expiration_date r) = None).
Proof.
  apply (@no_record_gives_no_days_left sample_runtime).
  vm_compute. reflexivity.
Defined.
